(** * Outline parser and slide renderer of the reveal.js skill

    A shallow embedding of [parse_outline] and [generate_slide_html] from
    [skills/revealjs/scripts/create_presentation.py].

    Python strings are modelled as [string], a sequence of code points
    below 256; [isspace] and [lower] are those of Python on that range.
    Every marker the parser tests for is ASCII.  The slide
    dictionaries become the record [slide]; the [metadata] dictionary is a
    [gmap string string]; the [content] list is a [list string].  The
    [for] loop over the lines is a left fold of [step] over the parser
    state. *)

From Stdlib Require Import Ascii String List Bool Arith Lia.
From stdpp Require Import base gmap strings list pretty.
Import ListNotations.

Local Open Scope string_scope.
Local Open Scope list_scope.

(** ** String primitives of the host language *)

Module PyStr.

(** [str.isspace] on one character (code points below 256):
    TAB..CR, FS..US, SPACE, NEL and NBSP. *)
Definition isspace (c : ascii) : bool :=
  let n := nat_of_ascii c in
  (((9 <=? n) && (n <=? 13)) || ((28 <=? n) && (n <=? 32))
  || (n =? 133) || (n =? 160))%nat.

(** [str.lower] on one character: A..Z and the Latin-1 capitals. *)
Definition lower_char (c : ascii) : ascii :=
  let n := nat_of_ascii c in
  if (((65 <=? n) && (n <=? 90))
      || ((192 <=? n) && (n <=? 222) && negb (n =? 215)))%nat
  then ascii_of_nat (n + 32) else c.

Fixpoint lower (s : string) : string :=
  match s with
  | EmptyString => EmptyString
  | String c r => String (lower_char c) (lower r)
  end.

Fixpoint lstrip (s : string) : string :=
  match s with
  | EmptyString => EmptyString
  | String c r => if isspace c then lstrip r else s
  end.

Fixpoint rstrip (s : string) : string :=
  match s with
  | EmptyString => EmptyString
  | String c r =>
      match rstrip r with
      | EmptyString => if isspace c then EmptyString else String c EmptyString
      | r' => String c r'
      end
  end.

(** [s.strip()] *)
Definition strip (s : string) : string := rstrip (lstrip s).

(** [s.startswith(p)] *)
Fixpoint startswith (s p : string) {struct p} : bool :=
  match p, s with
  | EmptyString, _ => true
  | String a p', String b s' => Ascii.eqb a b && startswith s' p'
  | String _ _, EmptyString => false
  end.

(** [s[n:]] *)
Fixpoint drop (n : nat) (s : string) : string :=
  match n, s with
  | O, _ => s
  | S n', String _ r => drop n' r
  | S _, EmptyString => EmptyString
  end.

(** [c in s] for a one-character needle *)
Fixpoint contains (c : ascii) (s : string) : bool :=
  match s with
  | EmptyString => false
  | String a r => Ascii.eqb a c || contains c r
  end.

(** [s.split(c, 1)] when [c] occurs in [s]: the text before the first
    [c] and the text after it; with no [c], the whole string and
    nothing (the caller tests [c in s] first). *)
Fixpoint split_once (c : ascii) (s : string) : string * string :=
  match s with
  | EmptyString => (EmptyString, EmptyString)
  | String a r =>
      if Ascii.eqb a c then (EmptyString, r)
      else let '(k, v) := split_once c r in (String a k, v)
  end.

(** [s.split(c)]: never empty, one more piece than occurrences of [c]. *)
Fixpoint split (c : ascii) (s : string) : list string :=
  match s with
  | EmptyString => [EmptyString]
  | String a r =>
      if Ascii.eqb a c then EmptyString :: split c r
      else match split c r with
           | p :: ps => String a p :: ps
           | [] => [String a EmptyString]
           end
  end.

(** Truthiness of a string: non-empty. *)
Definition truthy (s : string) : bool :=
  match s with EmptyString => false | _ => true end.

(** [a or b] on strings *)
Definition or_else (a b : string) : string := if truthy a then a else b.

End PyStr.

Definition newline : ascii := "010"%char.
Definition colon : ascii := ":"%char.
Definition nl : string := String newline EmptyString.
Definition dquote : string := String "034"%char EmptyString.

(** ** Slides and the parser state *)

Inductive slide_type := title | content.

Record slide := mkSlide {
  s_type : slide_type;
  s_title : string;
  s_content : list string;
  s_metadata : gmap string string
}.

Record parser_state := mkState {
  slides : list slide;
  current_slide : option slide;
  in_code_block : bool;
  code_lang : option string
}.

Definition init_state : parser_state :=
  {| slides := []; current_slide := None;
     in_code_block := false; code_lang := None |}.

(** ** Body fragments *)

Definition ul_open : string := "<ul>".
Definition ul_close : string := "</ul>".
Definition code_close : string := "</code></pre>".
Definition code_open (lang : string) : string :=
  "<pre><code class=" +:+ dquote +:+ lang +:+ dquote +:+ " data-trim>".
Definition h2_frag (t : string) : string := "<h2>" +:+ t +:+ "</h2>".
Definition li_frag (t : string) : string := "  <li>" +:+ t +:+ "</li>".
Definition p_frag (t : string) : string := "<p>" +:+ t +:+ "</p>".

(** ** Line classification *)

Definition is_fence (line : string) : bool :=
  PyStr.startswith (PyStr.strip line) "```".
Definition is_new_slide (line : string) : bool := PyStr.startswith line "# ".
Definition is_heading (line : string) : bool := PyStr.startswith line "## ".
Definition is_bullet (line : string) : bool :=
  PyStr.startswith (PyStr.strip line) "-".
Definition is_metadata (line : string) : bool :=
  PyStr.contains colon line && negb (is_bullet line).
Definition is_blank (line : string) : bool :=
  negb (PyStr.truthy (PyStr.strip line)).

Definition metadata_keys : list string :=
  ["Title"; "Subtitle"; "Author"; "Date"].

(** [key in ['Title', 'Subtitle', 'Author', 'Date']] *)
Definition key_in (key : string) (keys : list string) : bool :=
  existsb (String.eqb key) keys.

(** ** Updates of the slide under construction *)

(** [slide['content'].append(f)] *)
Definition append_content (f : string) (s : slide) : slide :=
  {| s_type := s_type s; s_title := s_title s;
     s_content := s_content s ++ [f]; s_metadata := s_metadata s |}.

(** [slide['metadata'][k] = v] *)
Definition set_metadata (k v : string) (s : slide) : slide :=
  {| s_type := s_type s; s_title := s_title s;
     s_content := s_content s;
     s_metadata := <[k := v]> (s_metadata s) |}.

(** Apply an update to [current_slide] when there is one
    ([if current_slide: ...]; a slide dictionary is never falsy). *)
Definition on_current (f : slide -> slide) (st : parser_state) : parser_state :=
  {| slides := slides st; current_slide := f <$> current_slide st;
     in_code_block := in_code_block st; code_lang := code_lang st |}.

(** The two backward loops over [content]: walking from the last
    fragment to the first, stop with [true] at a list-open fragment and
    with [false] at a list-close fragment; [false] when neither occurs.
    The argument is the content reversed. *)
Fixpoint scan_back (rev_content : list string) : bool :=
  match rev_content with
  | [] => false
  | f :: r =>
      if String.eqb f ul_open then true
      else if String.eqb f ul_close then false
      else scan_back r
  end.

Definition has_open_list (s : slide) : bool := scan_back (rev (s_content s)).

(** The slide started by a [# ] line. *)
Definition new_slide (line : string) : slide :=
  let slide_title := PyStr.strip (PyStr.drop 2 line) in
  {| s_type := if String.eqb (PyStr.lower slide_title) "title slide"
               then title else content;
     s_title := slide_title;
     s_content := [];
     s_metadata := ∅ |}.

(** The bullet branch on the current slide. *)
Definition add_bullet (line : string) (s : slide) : slide :=
  let needs_ul := negb (has_open_list s) in
  let s1 := if needs_ul then append_content ul_open s else s in
  append_content (li_frag (PyStr.strip (PyStr.drop 1 (PyStr.strip line)))) s1.

(** The metadata branch on the current slide. *)
Definition add_metadata (line : string) (s : slide) : slide :=
  let '(key0, value0) := PyStr.split_once colon line in
  let key := PyStr.strip key0 in
  let value := PyStr.strip value0 in
  if key_in key metadata_keys
  then set_metadata (PyStr.lower key) value s
  else s.

(** The branch [elif current_slide and current_slide['content']]. *)
Definition add_after_content (line : string) (s : slide) : slide :=
  if has_open_list s && PyStr.truthy (PyStr.strip line)
  then append_content (p_frag (PyStr.strip line)) (append_content ul_close s)
  else if PyStr.truthy (PyStr.strip line)
  then append_content (p_frag (PyStr.strip line)) s
  else s.

(** ** One iteration of the loop of [parse_outline] *)

Definition step (st : parser_state) (line : string) : parser_state :=
  if is_fence line then
    if negb (in_code_block st) then
      let lang :=
        PyStr.or_else (PyStr.strip (PyStr.drop 3 (PyStr.strip line))) "text" in
      {| slides := slides st;
         current_slide := append_content (code_open lang) <$> current_slide st;
         in_code_block := true;
         code_lang := Some lang |}
    else
      {| slides := slides st;
         current_slide := append_content code_close <$> current_slide st;
         in_code_block := false;
         code_lang := None |}
  else if in_code_block st then
    on_current (append_content line) st
  else if is_new_slide line then
    {| slides := match current_slide st with
                 | Some s => slides st ++ [s]
                 | None => slides st
                 end;
       current_slide := Some (new_slide line);
       in_code_block := in_code_block st;
       code_lang := code_lang st |}
  else if is_heading line then
    on_current (append_content (h2_frag (PyStr.strip (PyStr.drop 3 line)))) st
  else if is_metadata line then
    on_current (add_metadata line) st
  else if is_bullet line then
    on_current (add_bullet line) st
  else
    match current_slide st with
    | Some s =>
        match s_content s with
        | _ :: _ => on_current (add_after_content line) st
        | [] =>
            if PyStr.truthy (PyStr.strip line)
            then on_current (append_content (p_frag (PyStr.strip line))) st
            else st
        end
    | None => st
    end.

(** The loop over the lines. *)
Definition run (st : parser_state) (lines : list string) : parser_state :=
  fold_left step lines st.

(** The code after the loop: close a list left open by a trailing list
    item and commit the last slide. *)
Definition close_last (s : slide) : slide :=
  match last (s_content s) with
  | Some f => if PyStr.startswith f "  <li>" then append_content ul_close s else s
  | None => s
  end.

Definition finalize (st : parser_state) : list slide :=
  match current_slide st with
  | Some s => slides st ++ [close_last s]
  | None => slides st
  end.

Definition parse_lines (lines : list string) : list slide :=
  finalize (run init_state lines).

Definition parse_outline (text : string) : list slide :=
  parse_lines (PyStr.split newline text).

(** ** The renderer of one slide *)

(** [d.get(k, dflt)] *)
Definition get (m : gmap string string) (k dflt : string) : string :=
  default dflt (m !! k).

Definition generate_slide_html (s : slide) : string :=
  match s_type s with
  | title =>
      let title_ := get (s_metadata s) "title" "Presentation Title" in
      let subtitle := get (s_metadata s) "subtitle" EmptyString in
      let author := get (s_metadata s) "author" EmptyString in
      let date := get (s_metadata s) "date" EmptyString in
      let html := "      <section>" +:+ nl in
      let html := html +:+ "        <h1>" +:+ title_ +:+ "</h1>" +:+ nl in
      let html :=
        if PyStr.truthy subtitle
        then html +:+ "        <h3>" +:+ subtitle +:+ "</h3>" +:+ nl
        else html in
      let html :=
        if PyStr.truthy author || PyStr.truthy date then
          let html := html +:+ "        <p>" +:+ nl in
          let html :=
            if PyStr.truthy author
            then html +:+ "          <small>" +:+ author +:+ "</small><br>" +:+ nl
            else html in
          let html :=
            if PyStr.truthy date
            then html +:+ "          <small>" +:+ date +:+ "</small>" +:+ nl
            else html in
          html +:+ "        </p>" +:+ nl
        else html in
      html +:+ "      </section>" +:+ nl
  | content =>
      let html := "      <section>" +:+ nl in
      let html :=
        fold_left (fun html line => html +:+ "        " +:+ line +:+ nl)
                  (s_content s) html in
      html +:+ "      </section>" +:+ nl
  end.

(** ** Reference notions used to state the properties *)

(** The new-slide marker lines that lie outside fenced blocks, in source
    order; [in_code] says whether the first line is inside a fence. *)
Fixpoint slide_markers (in_code : bool) (lines : list string) : list string :=
  match lines with
  | [] => []
  | l :: r =>
      if is_fence l then slide_markers (negb in_code) r
      else if in_code then slide_markers in_code r
      else if is_new_slide l then l :: slide_markers in_code r
      else slide_markers in_code r
  end.

(** Every line that starts with the new-slide marker, fenced or not. *)
Definition marker_lines (lines : list string) : list string :=
  List.filter is_new_slide lines.

(** The heading a new-slide marker line gives its slide. *)
Definition heading_of (line : string) : string :=
  PyStr.strip (PyStr.drop 2 line).

(** Whether the parser is inside a fence after [lines], starting from
    [in_code]: each fence delimiter flips it. *)
Fixpoint in_code_after (in_code : bool) (lines : list string) : bool :=
  match lines with
  | [] => in_code
  | l :: r => in_code_after (if is_fence l then negb in_code else in_code) r
  end.

(** Headings of the slides committed or under construction. *)
Definition titles_of (st : parser_state) : list string :=
  map s_title (slides st) ++
  match current_slide st with Some s => [s_title s] | None => [] end.

(** An update of the slide under construction that keeps its heading,
    and one that keeps its metadata. *)
Definition keeps_title (f : slide -> slide) : Prop :=
  forall s, s_title (f s) = s_title s.




(** [s] with [fs] appended to its body. *)
Definition extend_content (fs : list string) (s : slide) : slide :=
  {| s_type := s_type s; s_title := s_title s;
     s_content := s_content s ++ fs; s_metadata := s_metadata s |}.

(** The language tag of an opening fence line. *)
Definition fence_tag (line : string) : string :=
  PyStr.or_else (PyStr.strip (PyStr.drop 3 (PyStr.strip line))) "text".

(** The parser state with the language tag cleared; the tag is written
    by a fence line and read by nothing else. *)
Definition forget_lang (st : parser_state) : parser_state :=
  {| slides := slides st; current_slide := current_slide st;
     in_code_block := in_code_block st; code_lang := None |}.

(** *** Line-by-line description of a rendered Title slide *)

(** Lines joined, each ended by a newline. *)
Definition unlines (ls : list string) : string :=
  fold_right (fun l acc => l +:+ nl +:+ acc) EmptyString ls.

(** A metadata entry counts when the key is present. *)
Definition entry_present (m : gmap string string) (k : string) : option string :=
  m !! k.

(** A metadata entry counts when the key is present with a non-empty
    value. *)
Definition entry_nonempty (m : gmap string string) (k : string) : option string :=
  match m !! k with
  | Some v => if PyStr.truthy v then Some v else None
  | None => None
  end.

Definition opt_line (f : string -> string) (o : option string) : list string :=
  match o with Some v => [f v] | None => [] end.

Definition h1_line (t : string) : string := "        <h1>" +:+ t +:+ "</h1>".
Definition h3_line (t : string) : string := "        <h3>" +:+ t +:+ "</h3>".
Definition author_line (t : string) : string :=
  "          <small>" +:+ t +:+ "</small><br>".
Definition date_line (t : string) : string :=
  "          <small>" +:+ t +:+ "</small>".

(** The lines of a Title slide as the specification words them: the
    heading from the title entry or the placeholder, the sub-heading when
    the subtitle entry counts, the byline block with the author and date
    lines that count, and no byline block when neither counts.  With
    [entry_present] this is the specification's reading of the renderer. *)
Definition title_slide_lines
    (pick : gmap string string -> string -> option string)
    (m : gmap string string) : list string :=
  ["      <section>"; h1_line (default "Presentation Title" (m !! "title"))]
  ++ opt_line h3_line (pick m "subtitle")
  ++ match pick m "author", pick m "date" with
     | None, None => []
     | a, d => ["        <p>"] ++ opt_line author_line a
               ++ opt_line date_line d ++ ["        </p>"]
     end
  ++ ["      </section>"].

(** ** The document and the command line *)

(** [sep.join(parts)] *)
Fixpoint join (sep : string) (parts : list string) : string :=
  match parts with
  | [] => EmptyString
  | [p] => p
  | p :: rest => p +:+ sep +:+ join sep rest
  end.

(** [TEMPLATE_START.format(title=title_)]: the template with its one field
    filled in and each doubled brace written once. *)
Definition TEMPLATE_START (title_ : string) : string :=
  unlines [
    "<!doctype html>";
    "<html lang=" +:+ dquote +:+ "en" +:+ dquote +:+ ">";
    "<head>";
    "  <meta charset=" +:+ dquote +:+ "utf-8" +:+ dquote +:+ ">";
    "  <meta name=" +:+ dquote +:+ "viewport" +:+ dquote +:+ " content=" +:+ dquote +:+ "width=device-width, initial-scale=1.0" +:+ dquote +:+ ">";
    "  <title>" +:+ title_ +:+ "</title>";
    "  ";
    "  <link rel=" +:+ dquote +:+ "stylesheet" +:+ dquote +:+ " href=" +:+ dquote +:+ "https://cdn.jsdelivr.net/npm/reveal.js@5/dist/reset.css" +:+ dquote +:+ ">";
    "  <link rel=" +:+ dquote +:+ "stylesheet" +:+ dquote +:+ " href=" +:+ dquote +:+ "https://cdn.jsdelivr.net/npm/reveal.js@5/dist/reveal.css" +:+ dquote +:+ ">";
    "  <link rel=" +:+ dquote +:+ "stylesheet" +:+ dquote +:+ " href=" +:+ dquote +:+ "https://cdn.jsdelivr.net/npm/reveal.js@5/dist/theme/black.css" +:+ dquote +:+ ">";
    "  <link rel=" +:+ dquote +:+ "stylesheet" +:+ dquote +:+ " href=" +:+ dquote +:+ "https://cdn.jsdelivr.net/npm/reveal.js@5/plugin/highlight/monokai.css" +:+ dquote +:+ ">";
    "  ";
    "  <style>";
    "    .reveal h1, .reveal h2, .reveal h3 { text-transform: none; }";
    "    .reveal section img { border: none; box-shadow: 0 0 20px rgba(0, 0, 0, 0.5); }";
    "  </style>";
    "</head>";
    "<body>";
    "  <div class=" +:+ dquote +:+ "reveal" +:+ dquote +:+ ">";
    "    <div class=" +:+ dquote +:+ "slides" +:+ dquote +:+ ">"
  ].

Definition TEMPLATE_END : string :=
  join nl [
    EmptyString;
    "    </div>";
    "  </div>";
    "  ";
    "  <script src=" +:+ dquote +:+ "https://cdn.jsdelivr.net/npm/reveal.js@5/dist/reveal.js" +:+ dquote +:+ "></script>";
    "  <script src=" +:+ dquote +:+ "https://cdn.jsdelivr.net/npm/reveal.js@5/plugin/markdown/markdown.js" +:+ dquote +:+ "></script>";
    "  <script src=" +:+ dquote +:+ "https://cdn.jsdelivr.net/npm/reveal.js@5/plugin/highlight/highlight.js" +:+ dquote +:+ "></script>";
    "  <script src=" +:+ dquote +:+ "https://cdn.jsdelivr.net/npm/reveal.js@5/plugin/notes/notes.js" +:+ dquote +:+ "></script>";
    "  ";
    "  <script>";
    "    Reveal.initialize({";
    "      hash: true,";
    "      center: true,";
    "      transition: 'slide',";
    "      plugins: [ RevealMarkdown, RevealHighlight, RevealNotes ]";
    "    });";
    "  </script>";
    "</body>";
    "</html>";
    EmptyString
  ].

(** The title of the HTML document. *)
Definition document_title (sl : list slide) : string :=
  match sl with
  | first :: _ =>
      match s_type first with
      | title => get (s_metadata first) "title" "Presentation"
      | content => "Presentation"
      end
  | [] => "Presentation"
  end.

(** The HTML that [create_presentation] builds from the parsed slides. *)
Definition render_document (sl : list slide) : string :=
  let html := TEMPLATE_START (document_title sl) in
  let html := fold_left (fun html s => html +:+ generate_slide_html s) sl html in
  html +:+ TEMPLATE_END.

(** *** The script and the outside world

    [create_presentation] and [main] call the outside world four ways:
    [Path(p).exists()], [Path(p).read_text()], [Path(p).write_text(t)]
    and [print(msg)].  Any of these calls can raise, and the script
    catches nothing, so a raising call ends the run.  A script is the
    tree of the calls it makes, each continuing with the call's answer;
    nothing is assumed about what the outside world answers. *)

Inductive call :=
| CallExists (path : string)
| CallReadText (path : string)
| CallWriteText (path text : string)
| CallPrint (msg : string).

Inductive script (A : Type) : Type :=
| Return (a : A)
| DoExists (path : string) (k : bool -> script A)
| DoReadText (path : string) (k : string -> script A)
| DoWriteText (path text : string) (k : script A)
| DoPrint (msg : string) (k : script A).

Arguments Return {A} a.
Arguments DoExists {A} path k.
Arguments DoReadText {A} path k.
Arguments DoWriteText {A} path text k.
Arguments DoPrint {A} msg k.

(** Run [p], then [f] on its result. *)
Fixpoint bind {A B : Type} (p : script A) (f : A -> script B) : script B :=
  match p with
  | Return a => f a
  | DoExists path k => DoExists path (fun found => bind (k found) f)
  | DoReadText path k => DoReadText path (fun text => bind (k text) f)
  | DoWriteText path text k => DoWriteText path text (bind k f)
  | DoPrint msg k => DoPrint msg (bind k f)
  end.

(** [print] called on each message in turn, then [k]. *)
Fixpoint print_all {A : Type} (msgs : list string) (k : script A) : script A :=
  match msgs with
  | [] => k
  | msg :: rest => DoPrint msg (print_all rest k)
  end.

(** [create_presentation]: the value it returns. *)
Definition create_presentation (outline_path output_path : string) : script bool :=
  DoReadText outline_path (fun outline_text =>
    let sl := parse_outline outline_text in
    match sl with
    | [] => DoPrint "Error: No slides found in outline" (Return false)
    | _ :: _ =>
        DoWriteText output_path (render_document sl)
          (DoPrint ("Created presentation: " +:+ output_path)
             (DoPrint ("Slides: " +:+ pretty (length sl))
                (Return true)))
    end).

(** The lines [main] prints when the argument count is wrong. *)
Definition usage : list string :=
  [ "Usage: python create_presentation.py outline.txt output.html";
    nl +:+ "Outline format:";
    "  # Title Slide";
    "  Title: My Presentation";
    "  Author: John Doe";
    "  ";
    "  # Slide 1";
    "  ## Topic";
    "  - Point 1";
    "  - Point 2" ].

(** [main] on the argument vector [argv] ([sys.argv], the script name
    first): the status it passes to [sys.exit]. *)
Definition main (argv : list string) : script nat :=
  match argv with
  | [_; outline_path; output_path] =>
      DoExists outline_path (fun found =>
        if found
        then bind (create_presentation outline_path output_path)
                  (fun success => Return (if success then 0 else 1))
        else DoPrint ("Error: Outline file not found: " +:+ outline_path)
                     (Return 1))
  | _ => print_all usage (Return 1)
  end.

(** An outside world with states [E]: each call either raises ([None]) or
    gives its answer and the next state. *)
Record os (E : Type) := mkOs {
  os_exists : E -> string -> option (bool * E);
  os_read_text : E -> string -> option (string * E);
  os_write_text : E -> string -> string -> option E;
  os_print : E -> string -> option E
}.

Arguments os_exists {E} o e path.
Arguments os_read_text {E} o e path.
Arguments os_write_text {E} o e path text.
Arguments os_print {E} o e msg.

(** What happened during a run, in order; [Raised c] is the call that
    raised and ended it. *)
Inductive event :=
| Checked (path : string) (found : bool)
| ReadOk (path text : string)
| WriteOk (path text : string)
| Printed (msg : string)
| Raised (c : call).

(** A run: the events, and the result unless a call raised. *)
Definition run_of (A : Type) : Type := (list event * option A)%type.

Definition after {A : Type} (ev : event) (r : run_of A) : run_of A :=
  (ev :: r.1, r.2).

Definition raised_by {A : Type} (c : call) : run_of A := ([Raised c], None).

(** The run of a script in an outside world. *)
Fixpoint exec {E A : Type} (sys : os E) (p : script A) (e : E) : run_of A :=
  match p with
  | Return a => ([], Some a)
  | DoExists path k =>
      match os_exists sys e path with
      | Some (found, e') => after (Checked path found) (exec sys (k found) e')
      | None => raised_by (CallExists path)
      end
  | DoReadText path k =>
      match os_read_text sys e path with
      | Some (text, e') => after (ReadOk path text) (exec sys (k text) e')
      | None => raised_by (CallReadText path)
      end
  | DoWriteText path text k =>
      match os_write_text sys e path text with
      | Some e' => after (WriteOk path text) (exec sys k e')
      | None => raised_by (CallWriteText path text)
      end
  | DoPrint msg k =>
      match os_print sys e msg with
      | Some e' => after (Printed msg) (exec sys k e')
      | None => raised_by (CallPrint msg)
      end
  end.

(** The writes that succeeded during a run. *)
Fixpoint writes (tr : list event) : list (string * string) :=
  match tr with
  | [] => []
  | WriteOk path text :: rest => (path, text) :: writes rest
  | _ :: rest => writes rest
  end.

(** The path an event is about, if any. *)
Definition call_path (c : call) : option string :=
  match c with
  | CallExists path | CallReadText path | CallWriteText path _ => Some path
  | CallPrint _ => None
  end.

Definition event_path (ev : event) : option string :=
  match ev with
  | Checked path _ | ReadOk path _ | WriteOk path _ => Some path
  | Printed _ => None
  | Raised c => call_path c
  end.

(** The run ended because a call raised. *)
Definition ended_by_raise (tr : list event) : Prop :=
  exists c, last tr = Some (Raised c).

(** The paths [main] may touch on the command line [prog outline output]:
    the outline path is tested and read, the output path is written. *)
Definition uses_only (outline_path output_path : string) (ev : event) : Prop :=
  match ev with
  | Checked path _ | ReadOk path _
  | Raised (CallExists path) | Raised (CallReadText path) => path = outline_path
  | WriteOk path _ | Raised (CallWriteText path _) => path = output_path
  | Printed _ | Raised (CallPrint _) => True
  end.

(** Every way a run of [create_presentation] can go: reading raises; or
    the text read has no slide and the error line is printed (or printing
    raises); or it has slides and the document is written and two lines
    are printed, unless the write or one of the prints raises. *)
Inductive presentation_run (inp out : string) : run_of bool -> Prop :=
| run_read_raises :
    presentation_run inp out ([Raised (CallReadText inp)], None)
| run_no_slides text :
    slide_markers false (PyStr.split newline text) = [] ->
    presentation_run inp out
      ([ReadOk inp text; Printed "Error: No slides found in outline"], Some false)
| run_no_slides_print_raises text :
    slide_markers false (PyStr.split newline text) = [] ->
    presentation_run inp out
      ([ReadOk inp text; Raised (CallPrint "Error: No slides found in outline")],
       None)
| run_write_raises text :
    slide_markers false (PyStr.split newline text) <> [] ->
    presentation_run inp out
      ([ReadOk inp text;
        Raised (CallWriteText out (render_document (parse_outline text)))], None)
| run_first_print_raises text :
    slide_markers false (PyStr.split newline text) <> [] ->
    presentation_run inp out
      ([ReadOk inp text; WriteOk out (render_document (parse_outline text));
        Raised (CallPrint ("Created presentation: " +:+ out))], None)
| run_second_print_raises text :
    let markers := slide_markers false (PyStr.split newline text) in
    markers <> [] ->
    presentation_run inp out
      ([ReadOk inp text; WriteOk out (render_document (parse_outline text));
        Printed ("Created presentation: " +:+ out);
        Raised (CallPrint ("Slides: " +:+ pretty (length markers)))], None)
| run_written text :
    let markers := slide_markers false (PyStr.split newline text) in
    markers <> [] ->
    presentation_run inp out
      ([ReadOk inp text; WriteOk out (render_document (parse_outline text));
        Printed ("Created presentation: " +:+ out);
        Printed ("Slides: " +:+ pretty (length markers))], Some true).

(** ** Further reference notions *)

(** A line that reaches the last two branches of the loop: no fence
    delimiter, new-slide marker, sub-heading, metadata or bullet line. *)
Definition is_plain (line : string) : bool :=
  negb (is_fence line) && negb (is_new_slide line) && negb (is_heading line)
  && negb (is_metadata line) && negb (is_bullet line).

(** No whitespace at either end. *)
Definition trimmed (s : string) : Prop := PyStr.strip s = s.

(** [s'] continues [s]: same kind and heading, the body of [s] kept as
    the beginning of the body of [s'], no metadata key lost. *)
Definition extends (s s' : slide) : Prop :=
  s_type s' = s_type s /\ s_title s' = s_title s /\
  s_content s `prefix_of` s_content s' /\
  dom (s_metadata s) ⊆ dom (s_metadata s').

(** A body line as the renderer writes it into a Content slide. *)
Definition indent_line (line : string) : string := "        " +:+ line.

(** The committed slides and the slide under construction satisfy [P]. *)
Definition slides_satisfy (P : slide -> Prop) (st : parser_state) : Prop :=
  Forall P (slides st) /\ forall s, current_slide st = Some s -> P s.

(** *** List tags in a body *)

(** Reading one fragment: [Some true] inside a list, [Some false] outside,
    [None] once the tags are out of place.  A list-open fragment must come
    outside a list, a list-close fragment and a list item inside one, and
    any other fragment outside. *)
Definition bracket_step (o : option bool) (f : string) : option bool :=
  match o with
  | None => None
  | Some inside =>
      if String.eqb f ul_open then (if inside then None else Some true)
      else if String.eqb f ul_close then (if inside then Some false else None)
      else if PyStr.startswith f "  <li>" then (if inside then Some true else None)
      else (if inside then None else Some false)
  end.

Definition brackets (body : list string) : option bool :=
  fold_left bracket_step body (Some false).

(** Every list is opened once, holds only items and is closed. *)
Definition well_bracketed (body : list string) : Prop :=
  brackets body = Some false.

(** What the loop keeps true of a body made of bullets and paragraphs:
    its tags are in place so far, the backward scan agrees on whether a
    list is open, and a list is open exactly when the last fragment is a
    list item. *)
Definition list_state_ok (body : list string) : Prop :=
  brackets body = Some (scan_back (rev body)) /\
  scan_back (rev body) =
  match last body with
  | Some f => PyStr.startswith f "  <li>"
  | None => false
  end.

(** * Properties *)

(** ** Facts about the string primitives *)

Section StringFacts.

Import PyStr.

Lemma startswith_cons_inv l c p :
  startswith l (String c p) = true ->
  exists r, l = String c r /\ startswith r p = true.
Proof.
  destruct l as [|b r]; simpl; [discriminate|].
  intros H. apply andb_true_iff in H as [Hc Hp].
  apply Ascii.eqb_eq in Hc. subst b. eauto.
Qed.

Lemma rstrip_cons_nonspace c r :
  isspace c = false -> exists r', rstrip (String c r) = String c r'.
Proof.
  intros Hc. simpl. destruct (rstrip r); rewrite ?Hc; eauto.
Qed.

Lemma strip_cons_nonspace c r :
  isspace c = false -> exists r', strip (String c r) = String c r'.
Proof.
  intros Hc. unfold strip. simpl. rewrite Hc.
  by apply rstrip_cons_nonspace.
Qed.

(** A line that starts with a non-space character keeps it when
    stripped. *)
Lemma strip_first_char l c p :
  startswith l (String c p) = true -> isspace c = false ->
  exists r, strip l = String c r.
Proof.
  intros H Hc. apply startswith_cons_inv in H as (r & -> & _).
  by apply strip_cons_nonspace.
Qed.

Lemma lstrip_head l c r : lstrip l = String c r -> isspace c = false.
Proof.
  induction l as [|a l IH]; simpl; [discriminate|].
  destruct (isspace a) eqn:Ha; [exact IH|].
  intros [= -> _]. exact Ha.
Qed.

Lemma strip_empty_lstrip l : strip l = EmptyString -> lstrip l = EmptyString.
Proof.
  unfold strip. destruct (lstrip l) as [|c r] eqn:E; [done|].
  apply lstrip_head in E.
  destruct (rstrip_cons_nonspace c r E) as [r' ->]. discriminate.
Qed.

Lemma lstrip_empty_contains l c :
  lstrip l = EmptyString -> isspace c = false -> contains c l = false.
Proof.
  intros Hl Hc. induction l as [|a l IH]; simpl in *; [done|].
  destruct (isspace a) eqn:Ha; [|discriminate].
  rewrite (IH Hl), orb_false_r.
  apply Ascii.eqb_neq. intros ->. congruence.
Qed.

Lemma lstrip_empty_startswith l c p :
  lstrip l = EmptyString -> isspace c = false ->
  startswith l (String c p) = false.
Proof.
  intros Hl Hc. destruct l as [|a l]; simpl in *; [done|].
  destruct (isspace a) eqn:Ha; [|discriminate].
  apply andb_false_iff. left. apply Ascii.eqb_neq. intros ->. congruence.
Qed.

End StringFacts.

(** ** How the classes of lines exclude one another *)

Section Classification.

Import PyStr.

Lemma new_slide_not_fence l : is_new_slide l = true -> is_fence l = false.
Proof.
  unfold is_new_slide, is_fence. intros H.
  destruct (strip_first_char _ _ _ H) as [r ->]; done.
Qed.

Lemma new_slide_not_bullet l : is_new_slide l = true -> is_bullet l = false.
Proof.
  unfold is_new_slide, is_bullet. intros H.
  destruct (strip_first_char _ _ _ H) as [r ->]; done.
Qed.

Lemma heading_not_fence l : is_heading l = true -> is_fence l = false.
Proof.
  unfold is_heading, is_fence. intros H.
  destruct (strip_first_char _ _ _ H) as [r ->]; done.
Qed.

Lemma heading_not_bullet l : is_heading l = true -> is_bullet l = false.
Proof.
  unfold is_heading, is_bullet. intros H.
  destruct (strip_first_char _ _ _ H) as [r ->]; done.
Qed.

Lemma bullet_not_fence l : is_bullet l = true -> is_fence l = false.
Proof.
  unfold is_bullet, is_fence. intros H.
  apply startswith_cons_inv in H as (r & -> & _). done.
Qed.

Lemma bullet_not_new_slide l : is_bullet l = true -> is_new_slide l = false.
Proof.
  intros H. destruct (is_new_slide l) eqn:E; [|done].
  apply new_slide_not_bullet in E. congruence.
Qed.

Lemma bullet_not_heading l : is_bullet l = true -> is_heading l = false.
Proof.
  intros H. destruct (is_heading l) eqn:E; [|done].
  apply heading_not_bullet in E. congruence.
Qed.

Lemma bullet_not_metadata l : is_bullet l = true -> is_metadata l = false.
Proof. unfold is_metadata. intros ->. apply andb_false_r. Qed.

Lemma blank_strip l : is_blank l = true -> strip l = EmptyString.
Proof. unfold is_blank. by destruct (strip l). Qed.

(** A blank line belongs to none of the marked classes. *)
Lemma blank_unmarked l :
  is_blank l = true ->
  is_fence l = false /\ is_new_slide l = false /\ is_heading l = false /\
  is_metadata l = false /\ is_bullet l = false.
Proof.
  intros Hb. pose proof (blank_strip l Hb) as Hs.
  pose proof (strip_empty_lstrip l Hs) as Hl.
  unfold is_fence, is_new_slide, is_heading, is_metadata, is_bullet.
  rewrite Hs.
  rewrite !(lstrip_empty_startswith l) by done.
  rewrite (lstrip_empty_contains l colon) by done. done.
Qed.

(** With no fence delimiter among the lines, every marker line is outside
    a fence. *)
Lemma slide_markers_no_fence ls :
  Forall (fun l => is_fence l = false) ls ->
  slide_markers false ls = marker_lines ls.
Proof.
  induction ls as [|l ls IH]; intros H; [done|].
  apply Forall_cons in H as [Hl H]. simpl. rewrite Hl, (IH H).
  by destruct (is_new_slide l).
Qed.

End Classification.

(** ** The loop, one line at a time *)

Section StepFacts.

Implicit Types (st : parser_state) (s : slide) (l line : string).

Lemma run_nil st : run st [] = st.
Proof. reflexivity. Qed.

Lemma run_cons st l ls : run st (l :: ls) = run (step st l) ls.
Proof. reflexivity. Qed.

Lemma run_app st ls1 ls2 : run st (ls1 ++ ls2) = run (run st ls1) ls2.
Proof. apply fold_left_app. Qed.

(** Only fence delimiters change [in_code_block]. *)
Lemma step_in_code st l :
  in_code_block (step st l) =
  if is_fence l then negb (in_code_block st) else in_code_block st.
Proof.
  unfold step. destruct (is_fence l).
  - by destruct (in_code_block st).
  - destruct (in_code_block st) eqn:E; [by rewrite <- E|].
    destruct (is_new_slide l); [done|].
    destruct (is_heading l); [done|].
    destruct (is_metadata l); [done|].
    destruct (is_bullet l); [done|].
    destruct (current_slide st) as [s|]; [|done].
    destruct (s_content s); [|done].
    by destruct (PyStr.truthy _).
Qed.

Lemma run_in_code st ls :
  in_code_block (run st ls) = in_code_after (in_code_block st) ls.
Proof.
  revert st. induction ls as [|l ls IH]; intros st; [done|].
  rewrite run_cons, IH, step_in_code. done.
Qed.

Lemma keeps_title_append x : keeps_title (append_content x).
Proof. by intros s. Qed.

Lemma keeps_title_metadata l : keeps_title (add_metadata l).
Proof.
  intros s. unfold add_metadata.
  destruct (PyStr.split_once colon l) as [k v].
  by destruct (key_in _ _).
Qed.

Lemma keeps_title_bullet l : keeps_title (add_bullet l).
Proof. intros s. unfold add_bullet. by destruct (has_open_list s). Qed.

Lemma keeps_title_after l : keeps_title (add_after_content l).
Proof.
  intros s. unfold add_after_content.
  destruct (has_open_list s), (PyStr.truthy _); done.
Qed.

Lemma keeps_title_close_last : keeps_title close_last.
Proof.
  intros s. unfold close_last. destruct (last _) as [f|]; [|done].
  by destruct (PyStr.startswith f _).
Qed.

Lemma titles_fmap f sl cur b lang :
  keeps_title f ->
  titles_of (mkState sl (f <$> cur) b lang) = titles_of (mkState sl cur b lang).
Proof.
  intros Hf. unfold titles_of. simpl. destruct cur as [s|]; simpl; [|done].
  by rewrite Hf.
Qed.

Lemma titles_on_current f st :
  keeps_title f -> titles_of (on_current f st) = titles_of st.
Proof.
  intros Hf. unfold on_current. rewrite titles_fmap by done. by destruct st.
Qed.

(** The headings a line adds: one for a new-slide marker outside a
    fence, none otherwise. *)
Lemma step_titles st l :
  titles_of (step st l) =
  titles_of st ++ map heading_of (slide_markers (in_code_block st) [l]).
Proof.
  unfold step. simpl. destruct (is_fence l).
  - rewrite app_nil_r.
    destruct (in_code_block st); simpl;
      (rewrite titles_fmap by apply keeps_title_append); by destruct st.
  - destruct (in_code_block st).
    { rewrite app_nil_r. apply titles_on_current, keeps_title_append. }
    destruct (is_new_slide l).
    { unfold titles_of. simpl.
      destruct (current_slide st) as [s|]; simpl.
      - by rewrite map_app.
      - by rewrite app_nil_r. }
    rewrite app_nil_r.
    destruct (is_heading l);
      [apply titles_on_current, keeps_title_append|].
    destruct (is_metadata l);
      [apply titles_on_current, keeps_title_metadata|].
    destruct (is_bullet l);
      [apply titles_on_current, keeps_title_bullet|].
    destruct (current_slide st) as [s|] eqn:Hc; [|done].
    destruct (s_content s).
    + destruct (PyStr.truthy _); [|done].
      apply titles_on_current, keeps_title_append.
    + apply titles_on_current, keeps_title_after.
Qed.

Lemma slide_markers_cons b l ls :
  slide_markers b (l :: ls) =
  slide_markers b [l] ++
  slide_markers (if is_fence l then negb b else b) ls.
Proof.
  simpl. destruct (is_fence l); [done|].
  destruct b; [done|]. by destruct (is_new_slide l).
Qed.

Lemma run_titles st ls :
  titles_of (run st ls) =
  titles_of st ++ map heading_of (slide_markers (in_code_block st) ls).
Proof.
  revert st. induction ls as [|l ls IH]; intros st.
  - simpl. by rewrite app_nil_r.
  - rewrite run_cons, IH, step_titles, step_in_code.
    rewrite (slide_markers_cons _ l ls), map_app, app_assoc. done.
Qed.

Lemma finalize_titles st : map s_title (finalize st) = titles_of st.
Proof.
  unfold finalize, titles_of. destruct (current_slide st) as [s|].
  - by rewrite map_app, <- (keeps_title_close_last s).
  - by rewrite app_nil_r.
Qed.

(** The headings of the parsed slides are those of the marker lines
    outside fences, in source order. *)
Lemma parse_lines_titles ls :
  map s_title (parse_lines ls) = map heading_of (slide_markers false ls).
Proof.
  unfold parse_lines. by rewrite finalize_titles, run_titles.
Qed.

End StepFacts.

(** ** Slide count and slide order *)

(** C1, as stated, fails: a marker line inside a fenced block is in the
    input, yet the parser returns no slide. *)
Lemma C1_fenced_marker_counterexample :
  let text := "```" +:+ nl +:+ "# A" in
  marker_lines (PyStr.split newline text) = ["# A"] /\
  parse_outline text = [].
Proof. split; reflexivity. Qed.

(** C1 (amended): for every input text, the number of slides returned by
    [parse_outline] equals the number of new-slide marker lines that lie
    outside fenced blocks; the result is empty exactly when there is no
    such line. *)
Theorem C1_slide_count (text : string) :
  let markers := slide_markers false (PyStr.split newline text) in
  length (parse_outline text) = length markers /\
  (parse_outline text = [] <-> markers = []).
Proof.
  simpl. unfold parse_outline.
  pose proof (parse_lines_titles (PyStr.split newline text)) as H.
  apply (f_equal length) in H. rewrite !length_map in H.
  split; [exact H|].
  split; intros E; rewrite E in H; simpl in H.
  - by destruct (slide_markers _ _).
  - by destruct (parse_lines _).
Qed.

(** C7, as stated, fails: the second marker line sits inside a fence and
    gives no slide, so the headings are not those of all marker lines. *)
Lemma C7_fenced_marker_counterexample :
  let text := "# A" +:+ nl +:+ "```" +:+ nl +:+ "# B" in
  map heading_of (marker_lines (PyStr.split newline text)) = ["A"; "B"] /\
  map s_title (parse_outline text) = ["A"].
Proof. split; reflexivity. Qed.

(** C7 (amended): for every input, the headings of the slides returned by
    [parse_outline] are, in order, the trimmed trailing texts of the
    new-slide marker lines that lie outside fenced blocks. *)
Theorem C7_heading_order (text : string) :
  map s_title (parse_outline text) =
  map heading_of (slide_markers false (PyStr.split newline text)).
Proof. apply parse_lines_titles. Qed.

(** ** Metadata lines, blank lines *)

Section MetadataFacts.

Implicit Types (st : parser_state) (s : slide) (l line : string).

Lemma on_current_id f st : (forall s, f s = s) -> on_current f st = st.
Proof.
  intros Hf. destruct st as [sl [s|] b lang]; unfold on_current; simpl.
  - by rewrite Hf.
  - done.
Qed.

Lemma on_current_some f st s :
  current_slide st = Some s ->
  on_current f st =
  mkState (slides st) (Some (f s)) (in_code_block st) (code_lang st).
Proof. intros H. unfold on_current. by rewrite H. Qed.

(** Outside a fence, a line with a colon that is no fence delimiter,
    new-slide marker, sub-heading or bullet takes the metadata branch. *)
Lemma step_metadata_line st line :
  in_code_block st = false ->
  is_fence line = false -> is_new_slide line = false ->
  is_heading line = false -> is_metadata line = true ->
  step st line = on_current (add_metadata line) st.
Proof. intros Hc Hf Hn Hh Hm. unfold step. by rewrite Hf, Hc, Hn, Hh, Hm. Qed.

Lemma add_metadata_recognised line key value s :
  PyStr.split_once colon line = (key, value) ->
  key_in (PyStr.strip key) metadata_keys = true ->
  add_metadata line s =
  set_metadata (PyStr.lower (PyStr.strip key)) (PyStr.strip value) s.
Proof. intros Hs Hk. unfold add_metadata. by rewrite Hs, Hk. Qed.

Lemma add_metadata_unrecognised line s :
  key_in (PyStr.strip (PyStr.split_once colon line).1) metadata_keys = false ->
  add_metadata line s = s.
Proof.
  unfold add_metadata. destruct (PyStr.split_once colon line) as [k v].
  simpl. by intros ->.
Qed.

Lemma key_in_metadata_keys key :
  key_in key metadata_keys = true ->
  key = "Title" \/ key = "Subtitle" \/ key = "Author" \/ key = "Date".
Proof.
  unfold key_in, metadata_keys. simpl. rewrite !orb_true_iff.
  rewrite !String.eqb_eq. intuition discriminate.
Qed.

(** The keys under which metadata is stored. *)
Lemma lower_metadata_key key :
  key_in key metadata_keys = true ->
  PyStr.lower key ∈ ["title"; "subtitle"; "author"; "date"].
Proof.
  intros H.
  destruct (key_in_metadata_keys key H) as [-> | [-> | [-> | ->]]];
    vm_compute; set_solver.
Qed.

(** Outside a fence, a line that starts with a bullet marker after
    trimming takes the bullet branch, colon or not. *)
Lemma step_bullet_line st line :
  in_code_block st = false -> is_bullet line = true ->
  step st line = on_current (add_bullet line) st.
Proof.
  intros Hc Hb. unfold step.
  rewrite (bullet_not_fence line Hb), Hc, (bullet_not_new_slide line Hb).
  by rewrite (bullet_not_heading line Hb), (bullet_not_metadata line Hb), Hb.
Qed.

(** A blank line outside a fence changes nothing. *)
Lemma step_blank st line :
  in_code_block st = false -> is_blank line = true -> step st line = st.
Proof.
  intros Hc Hb.
  destruct (blank_unmarked line Hb) as (Hf & Hn & Hh & Hm & Hbu).
  pose proof (blank_strip line Hb) as Hs.
  unfold step. rewrite Hf, Hc, Hn, Hh, Hm, Hbu, Hs. simpl.
  destruct (current_slide st) as [s|]; [|done].
  destruct (s_content s); [done|].
  apply on_current_id. intros s'. unfold add_after_content.
  rewrite Hs. simpl. by rewrite andb_false_r.
Qed.

End MetadataFacts.

(** C2, as stated, fails: the key is compared with the capitalised
    spellings only, so [title: Demo] stores nothing. *)
Lemma C2_lowercase_key_counterexample :
  let text := "# Title Slide" +:+ nl +:+ "title: Demo" in
  PyStr.lower (PyStr.strip (PyStr.split_once colon "title: Demo").1) = "title" /\
  parse_outline text = [mkSlide title "Title Slide" [] ∅].
Proof. split; reflexivity. Qed.

(** C2 (amended): for every metadata line (outside a fence; no fence
    delimiter, new-slide marker or sub-heading) read while a slide is
    under construction, if the trimmed key is spelled exactly [Title],
    [Subtitle], [Author] or [Date], the parser stores the trimmed value in
    that slide's metadata map under the lower-cased key, which is one of
    [title], [subtitle], [author], [date]; with any other spelling of the
    key the line changes nothing. *)
Theorem C2_metadata_stored
    (st : parser_state) (s : slide) (line key value : string) :
  in_code_block st = false ->
  current_slide st = Some s ->
  is_fence line = false -> is_new_slide line = false ->
  is_heading line = false -> is_metadata line = true ->
  PyStr.split_once colon line = (key, value) ->
  (key_in (PyStr.strip key) metadata_keys = true ->
     step st line =
       mkState (slides st)
         (Some (set_metadata (PyStr.lower (PyStr.strip key)) (PyStr.strip value) s))
         false (code_lang st) /\
     (forall s', current_slide (step st line) = Some s' ->
        s_metadata s' !! PyStr.lower (PyStr.strip key) = Some (PyStr.strip value)) /\
     PyStr.lower (PyStr.strip key) ∈ ["title"; "subtitle"; "author"; "date"]) /\
  (key_in (PyStr.strip key) metadata_keys = false -> step st line = st).
Proof.
  intros Hc Hs Hf Hn Hh Hm Hsp. split; intros Hk.
  - assert (Hstep : step st line =
       mkState (slides st)
         (Some (set_metadata (PyStr.lower (PyStr.strip key)) (PyStr.strip value) s))
         false (code_lang st)).
    { rewrite step_metadata_line by done.
      rewrite (on_current_some _ _ s Hs), Hc.
      by rewrite (add_metadata_recognised line key value). }
    split; [exact Hstep|]. split; [|by apply lower_metadata_key].
    intros s'. rewrite Hstep. simpl. intros [= <-]. simpl.
    apply lookup_insert_eq.
  - rewrite step_metadata_line by done.
    apply on_current_id. intros s'. apply add_metadata_unrecognised.
    by rewrite Hsp.
Qed.

(** The line [Title:  Demo ] under a Title slide. *)
Lemma C2_metadata_stored_witness :
  let st := run init_state ["# Title Slide"] in
  step st "Title:  Demo " =
  mkState [] (Some (mkSlide title "Title Slide" [] (<["title" := "Demo"]> ∅)))
          false None.
Proof.
  refine (proj1 (proj1 (C2_metadata_stored
    (run init_state ["# Title Slide"]) (mkSlide title "Title Slide" [] ∅)
    "Title:  Demo " "Title" "  Demo "
    eq_refl eq_refl eq_refl eq_refl eq_refl eq_refl eq_refl) eq_refl)).
Defined.

(** C3 (defect in the code): after [- a] a list is open, and the blank
    line that follows leaves the parser state as it is, so no list-close
    fragment is appended, against the claim and against the comment on
    the branch ("Close bullet list if next line is not a bullet").  In
    the outline [# S], [- a], blank, [## H] the list is never closed; in
    [# S], [- a], blank, [- b] the second bullet joins the first list. *)
Theorem C3_blank_line_leaves_list_open :
  let st := run init_state ["# S"; "- a"] in
  has_open_list <$> current_slide st = Some true /\
  is_blank EmptyString = true /\
  step st EmptyString = st /\
  parse_outline ("# S" +:+ nl +:+ "- a" +:+ nl +:+ nl +:+ "## H") =
    [mkSlide content "S" ["<ul>"; "  <li>a</li>"; "<h2>H</h2>"] ∅] /\
  parse_outline ("# S" +:+ nl +:+ "- a" +:+ nl +:+ nl +:+ "- b") =
    [mkSlide content "S" ["<ul>"; "  <li>a</li>"; "  <li>b</li>"; "</ul>"] ∅].
Proof. repeat split; reflexivity. Qed.

(** C9, as stated, fails: a sub-heading line with a colon is outside a
    fence, has a colon, is no bullet and has an unrecognised key, yet it
    appends a fragment. *)
Lemma C9_heading_with_colon_counterexample :
  let st := run init_state ["# S"] in
  let line := "## Note: x" in
  in_code_block st = false /\
  PyStr.contains colon line = true /\ is_bullet line = false /\
  key_in (PyStr.strip (PyStr.split_once colon line).1) metadata_keys = false /\
  current_slide (step st line) =
    Some (mkSlide content "S" ["<h2>Note: x</h2>"] ∅).
Proof. repeat split; reflexivity. Qed.

(** C9 (amended): a line outside a fenced block that is no fence
    delimiter, new-slide marker or sub-heading line, contains a colon,
    does not start with a bullet marker after trimming, and whose trimmed
    key is not spelled exactly [Title], [Subtitle], [Author] or [Date], is
    ignored: the parser state, and with it every metadata map and body,
    stays as it was. *)
Theorem C9_unrecognised_ignored (st : parser_state) (line : string) :
  in_code_block st = false ->
  is_fence line = false -> is_new_slide line = false ->
  is_heading line = false ->
  PyStr.contains colon line = true -> is_bullet line = false ->
  key_in (PyStr.strip (PyStr.split_once colon line).1) metadata_keys = false ->
  step st line = st.
Proof.
  intros Hc Hf Hn Hh Hco Hb Hk.
  rewrite step_metadata_line; try done.
  - apply on_current_id. intros s. by apply add_metadata_unrecognised.
  - unfold is_metadata. by rewrite Hco, Hb.
Qed.

(** An unrecognised [Note:] line after an open list. *)
Lemma C9_unrecognised_ignored_witness :
  let st := run init_state ["# S"; "- a"] in
  step st "Note: remember this" = st.
Proof.
  exact (C9_unrecognised_ignored (run init_state ["# S"; "- a"])
           "Note: remember this"
           eq_refl eq_refl eq_refl eq_refl eq_refl eq_refl eq_refl).
Defined.

(** ** Which keys a metadata map can hold *)

Section MetadataInvariant.

Implicit Types (st : parser_state) (s : slide) (l line : string).















End MetadataInvariant.



(** ** List bracketing *)

Section Finalisation.

Implicit Types (st : parser_state) (s : slide).

Lemma close_last_list_item s t :
  last (s_content s) = Some (li_frag t) ->
  close_last s = append_content ul_close s.
Proof. intros H. unfold close_last. by rewrite H. Qed.

Lemma finalize_list_item st s t :
  current_slide st = Some s ->
  last (s_content s) = Some (li_frag t) ->
  finalize st = slides st ++ [append_content ul_close s].
Proof.
  intros Hc Hl. unfold finalize.
  by rewrite Hc, (close_last_list_item s t).
Qed.

End Finalisation.

(** C5: the lines [- a], [- b], [plain], read into a slide with an empty
    body, give exactly the fragments list-open, two list items,
    list-close and a paragraph; and when the input ends while the last
    fragment of the slide under construction is a list item, a list-close
    fragment is appended to it before it is committed. *)
Theorem C5_list_bracketing :
  (forall (st : parser_state) (s : slide),
     in_code_block st = false ->
     current_slide st = Some s ->
     s_content s = [] ->
     current_slide (run st ["- a"; "- b"; "plain"]) =
     Some (mkSlide (s_type s) (s_title s)
             ["<ul>"; "  <li>a</li>"; "  <li>b</li>"; "</ul>"; "<p>plain</p>"]
             (s_metadata s))) /\
  (forall (text : string) (s : slide) (item : string),
     current_slide (run init_state (PyStr.split newline text)) = Some s ->
     last (s_content s) = Some (li_frag item) ->
     parse_outline text =
     slides (run init_state (PyStr.split newline text)) ++
     [mkSlide (s_type s) (s_title s) (s_content s ++ ["</ul>"]) (s_metadata s)]).
Proof.
  split.
  - intros [sl cur b lang] [ty t c m]. simpl. intros -> -> ->. reflexivity.
  - intros text s item Hc Hl. unfold parse_outline, parse_lines.
    by rewrite (finalize_list_item _ s item).
Qed.

(** The three lines under the slide [S], and an outline that ends in a
    list item. *)
Lemma C5_list_bracketing_witness :
  current_slide (run (run init_state ["# S"]) ["- a"; "- b"; "plain"]) =
    Some (mkSlide content "S"
            ["<ul>"; "  <li>a</li>"; "  <li>b</li>"; "</ul>"; "<p>plain</p>"] ∅) /\
  parse_outline ("# S" +:+ nl +:+ "## T" +:+ nl +:+ "- a") =
    [mkSlide content "S" ["<h2>T</h2>"; "<ul>"; "  <li>a</li>"; "</ul>"] ∅].
Proof.
  split.
  - exact (proj1 C5_list_bracketing (run init_state ["# S"])
             (mkSlide content "S" [] ∅) eq_refl eq_refl eq_refl).
  - exact (proj2 C5_list_bracketing ("# S" +:+ nl +:+ "## T" +:+ nl +:+ "- a")
             (mkSlide content "S" ["<h2>T</h2>"; "<ul>"; "  <li>a</li>"] ∅) "a"
             eq_refl eq_refl).
Defined.

(** ** Fenced blocks *)

Section Fences.

Implicit Types (st : parser_state) (s : slide) (l : string).

Lemma extend_content_nil s : extend_content [] s = s.
Proof. destruct s. unfold extend_content. simpl. by rewrite app_nil_r. Qed.

(** The opening fence line. *)
Lemma step_fence_open st l :
  in_code_block st = false -> is_fence l = true ->
  step st l =
  mkState (slides st) (append_content (code_open (fence_tag l)) <$> current_slide st)
          true (Some (fence_tag l)).
Proof. intros Hc Hf. unfold step. by rewrite Hf, Hc. Qed.

(** The closing fence line. *)
Lemma step_fence_close st l :
  in_code_block st = true -> is_fence l = true ->
  step st l =
  mkState (slides st) (append_content code_close <$> current_slide st) false None.
Proof. intros Hc Hf. unfold step. by rewrite Hf, Hc. Qed.

(** A line inside a fence. *)
Lemma step_fenced_line st l :
  in_code_block st = true -> is_fence l = false ->
  step st l = on_current (append_content l) st.
Proof. intros Hc Hf. unfold step. by rewrite Hf, Hc. Qed.

(** The lines between two fence delimiters go to the body as they are. *)
Lemma run_fenced_lines body sl s lang :
  Forall (fun l => is_fence l = false) body ->
  run (mkState sl (Some s) true lang) body =
  mkState sl (Some (extend_content body s)) true lang.
Proof.
  revert s. induction body as [|l body IH]; intros s Hb.
  - by rewrite run_nil, extend_content_nil.
  - apply Forall_cons in Hb as [Hl Hb].
    rewrite run_cons, step_fenced_line by done.
    unfold on_current. simpl. rewrite IH by done.
    unfold extend_content, append_content. simpl.
    by rewrite <- app_assoc.
Qed.

End Fences.

(** C6: a fenced block read while a slide is under construction appends
    to that slide's body a code-block-open fragment with the language tag
    of the opening fence line ([text] when the trimmed trailing text is
    empty), then every enclosed line unchanged, whatever it starts with or
    contains, then a code-block-close fragment; the parser is outside the
    fence afterwards. *)
Theorem C6_fenced_block
    (st : parser_state) (s : slide) (opening closing : string)
    (body : list string) :
  in_code_block st = false ->
  current_slide st = Some s ->
  is_fence opening = true ->
  Forall (fun l => is_fence l = false) body ->
  is_fence closing = true ->
  let trailing := PyStr.strip (PyStr.drop 3 (PyStr.strip opening)) in
  let tag := if PyStr.truthy trailing then trailing else "text" in
  run st (opening :: body ++ [closing]) =
  mkState (slides st)
    (Some (mkSlide (s_type s) (s_title s)
             (s_content s ++
              ["<pre><code class=" +:+ dquote +:+ tag +:+ dquote +:+ " data-trim>"]
              ++ body ++ ["</code></pre>"])
             (s_metadata s)))
    false None.
Proof.
  intros Hc Hs Hop Hb Hcl trailing tag.
  rewrite run_cons, run_app, step_fence_open, Hs by done. simpl fmap.
  rewrite run_fenced_lines by done.
  rewrite run_cons, run_nil, step_fence_close by done.
  simpl. unfold append_content, extend_content. simpl.
  by rewrite <- !app_assoc.
Qed.

(** A [python] block whose lines look like a marker and a bullet with a
    colon. *)
Lemma C6_fenced_block_witness :
  run (run init_state ["# S"])
      ("```python" :: ["# x = 1"; "- y: 2"] ++ ["```"]) =
  mkState []
    (Some (mkSlide content "S"
       ([] ++ ["<pre><code class=" +:+ dquote +:+ "python" +:+ dquote +:+ " data-trim>"]
           ++ ["# x = 1"; "- y: 2"] ++ ["</code></pre>"]) ∅))
    false None.
Proof.
  refine (C6_fenced_block (run init_state ["# S"]) (mkSlide content "S" [] ∅)
            "```python" "```" ["# x = 1"; "- y: 2"]
            eq_refl eq_refl eq_refl _ eq_refl).
  repeat constructor.
Defined.

(** ** Rendering a Title slide *)

Lemma string_app_assoc (a b c : string) : (a +:+ b) +:+ c = a +:+ (b +:+ c).
Proof.
  induction a as [|x a IH]; [done|].
  change (String x ((a +:+ b) +:+ c) = String x (a +:+ (b +:+ c))).
  by rewrite IH.
Qed.

(** C8, as stated, fails: a [Subtitle:] line with no value stores the
    subtitle key with an empty value; the key is present, yet no
    sub-heading is emitted (and likewise for the byline entries). *)
Lemma C8_empty_subtitle_counterexample :
  let s := mkSlide title "Title Slide" [] (<["subtitle" := EmptyString]> ∅) in
  parse_outline ("# Title Slide" +:+ nl +:+ "Subtitle:") = [s] /\
  s_metadata s !! "subtitle" = Some EmptyString /\
  generate_slide_html s =
    unlines ["      <section>"; "        <h1>Presentation Title</h1>";
             "      </section>"] /\
  generate_slide_html s <> unlines (title_slide_lines entry_present (s_metadata s)).
Proof. repeat split; try reflexivity. vm_compute. discriminate. Qed.

(** C8 (amended): for every Title slide the renderer emits the heading
    from the metadata title (a placeholder when the key is absent), the
    sub-heading exactly when the subtitle is present with a non-empty
    value, and the byline block with the author line exactly when the
    author is present and non-empty and the date line exactly when the
    date is present and non-empty; the block is omitted exactly when
    neither is present and non-empty. *)
Theorem C8_title_slide_html
    (t : string) (c : list string) (m : gmap string string) :
  generate_slide_html (mkSlide title t c m) =
  unlines (title_slide_lines entry_nonempty m).
Proof.
  unfold generate_slide_html, title_slide_lines, entry_nonempty, get.
  cbn [s_type s_metadata].
  destruct (m !! "title") as [vt|];
    destruct (m !! "subtitle") as [[|? ?]|];
    destruct (m !! "author") as [[|? ?]|];
    destruct (m !! "date") as [[|? ?]|];
    cbn -[String.append];
    unfold h1_line, h3_line, author_line, date_line;
    rewrite ?string_app_assoc; reflexivity.
Qed.

(** ** Before the first slide *)

Section BeforeFirstSlide.

Implicit Types (st : parser_state) (s : slide) (l : string).

Lemma step_forget_lang st l :
  forget_lang (step (forget_lang st) l) = forget_lang (step st l).
Proof.
  unfold step. simpl.
  destruct (is_fence l); [by destruct (in_code_block st)|].
  destruct (in_code_block st); [done|].
  destruct (is_new_slide l); [done|].
  destruct (is_heading l); [done|].
  destruct (is_metadata l); [done|].
  destruct (is_bullet l); [done|].
  destruct (current_slide st) as [s|]; [|done].
  destruct (s_content s); [|done].
  by destruct (PyStr.truthy _).
Qed.

Lemma run_forget_lang st ls :
  forget_lang (run (forget_lang st) ls) = forget_lang (run st ls).
Proof.
  revert st. induction ls as [|l ls IH]; intros st; [done|].
  rewrite !run_cons, <- IH, step_forget_lang, IH. done.
Qed.

Lemma finalize_forget_lang st : finalize (forget_lang st) = finalize st.
Proof. done. Qed.

(** The result does not depend on the language tag carried by the
    state. *)
Lemma finalize_run_forget_lang st ls :
  finalize (run (forget_lang st) ls) = finalize (run st ls).
Proof.
  rewrite <- (finalize_forget_lang (run (forget_lang st) ls)).
  by rewrite run_forget_lang.
Qed.

(** With no slide under construction, a line that is inside a fence or
    is no new-slide marker starts nothing and adds nothing. *)
Lemma step_no_slide st l :
  current_slide st = None ->
  in_code_block st = true \/ is_new_slide l = false ->
  slides (step st l) = slides st /\ current_slide (step st l) = None.
Proof.
  intros Hc Hor. unfold step. rewrite Hc.
  destruct (is_fence l); [by destruct (in_code_block st)|].
  destruct (in_code_block st) eqn:Hb.
  { unfold on_current. simpl. by rewrite Hc. }
  destruct Hor as [?| ->]; [done|].
  unfold on_current. rewrite Hc.
  destruct (is_heading l); [done|].
  destruct (is_metadata l); [done|].
  destruct (is_bullet l); done.
Qed.

Lemma run_no_slide st ls :
  current_slide st = None ->
  Forall (fun l => is_new_slide l = false) ls ->
  slides (run st ls) = slides st /\ current_slide (run st ls) = None.
Proof.
  revert st. induction ls as [|l ls IH]; intros st Hc Hls; [done|].
  apply Forall_cons in Hls as [Hl Hls].
  destruct (step_no_slide st l Hc (or_intror Hl)) as [Hs Hc'].
  rewrite run_cons. destruct (IH (step st l) Hc' Hls) as [-> ->].
  by rewrite Hs.
Qed.

(** The state after the lines that precede the first marker line. *)
Lemma run_prefix_state pre :
  Forall (fun l => is_new_slide l = false) pre ->
  forget_lang (run init_state pre) =
  mkState [] None (in_code_after false pre) None.
Proof.
  intros Hpre.
  destruct (run_no_slide init_state pre eq_refl Hpre) as [Hs Hc].
  unfold forget_lang. by rewrite Hs, Hc, run_in_code.
Qed.

End BeforeFirstSlide.

(** C10: the lines before the first new-slide marker line leave the
    parser with no slide committed and none under construction; only the
    fence delimiters among them count, each flipping the in-code-block
    state, so the result is that of the remaining lines read from that
    state; and when those lines leave a fence open, the marker line that
    follows is inside the fence and starts no slide. *)
Theorem C10_before_first_slide (pre rest : list string) :
  Forall (fun l => is_new_slide l = false) pre ->
  (slides (run init_state pre) = [] /\
   current_slide (run init_state pre) = None /\
   in_code_block (run init_state pre) = in_code_after false pre) /\
  parse_lines (pre ++ rest) =
    finalize (run (mkState [] None (in_code_after false pre) None) rest) /\
  (in_code_after false pre = false -> parse_lines (pre ++ rest) = parse_lines rest) /\
  (in_code_after false pre = true ->
   forall marker, is_new_slide marker = true ->
     step (run init_state pre) marker = run init_state pre /\
     parse_lines (pre ++ marker :: rest) =
       finalize (run (mkState [] None true None) rest)).
Proof.
  intros Hpre.
  destruct (run_no_slide init_state pre eq_refl Hpre) as [Hs Hc].
  pose proof (run_in_code init_state pre) as Hb. simpl in Hb.
  pose proof (run_prefix_state pre Hpre) as Hst.
  assert (Hrest : forall ls, parse_lines (pre ++ ls) =
            finalize (run (mkState [] None (in_code_after false pre) None) ls)).
  { intros ls. unfold parse_lines.
    by rewrite run_app, <- finalize_run_forget_lang, Hst. }
  split; [done|]. split; [apply Hrest|]. split.
  - intros E. rewrite Hrest, E. done.
  - intros E marker Hm. rewrite Hrest, E.
    assert (Hstep : forall st, current_slide st = None ->
              in_code_block st = true -> step st marker = st).
    { intros [sl cur b lang]. simpl. intros -> ->. unfold step.
      by rewrite (new_slide_not_fence marker Hm). }
    split.
    + apply Hstep; [done|]. by rewrite Hb.
    + by rewrite run_cons, Hstep.
Qed.

(** A prefix that leaves a fence open: the marker [# A] that follows is
    inside it. *)
Lemma C10_before_first_slide_witness :
  parse_lines (["## early"; "- item"; "Title: x"; "```"] ++ ["# A"; "```"; "# B"]) =
    finalize (run (mkState [] None true None) ["# A"; "```"; "# B"]) /\
  parse_lines (["text"; "```"] ++ "# A" :: ["```"; "# B"]) =
    finalize (run (mkState [] None true None) ["```"; "# B"]).
Proof.
  split.
  - refine (proj1 (proj2 (C10_before_first_slide
              ["## early"; "- item"; "Title: x"; "```"] ["# A"; "```"; "# B"] _))).
    repeat constructor.
  - refine (proj2 (proj2 (proj2 (proj2 (C10_before_first_slide
              ["text"; "```"] ["```"; "# B"] _))) eq_refl "# A" eq_refl)).
    repeat constructor.
Defined.

(** * Further properties of the parser *)

(** ** The body fragments and the backward scan *)

Section ScanFacts.

Implicit Types (st : parser_state) (s : slide) (l line x : string).

Lemma has_open_list_append x s :
  has_open_list (append_content x s) =
  if String.eqb x ul_open then true
  else if String.eqb x ul_close then false
  else has_open_list s.
Proof.
  unfold has_open_list, append_content. simpl. by rewrite rev_unit.
Qed.

Lemma has_open_list_li t s : has_open_list (append_content (li_frag t) s) = has_open_list s.
Proof. by rewrite has_open_list_append. Qed.

Lemma has_open_list_p t s : has_open_list (append_content (p_frag t) s) = has_open_list s.
Proof. by rewrite has_open_list_append. Qed.

Lemma has_open_list_h2 t s : has_open_list (append_content (h2_frag t) s) = has_open_list s.
Proof. by rewrite has_open_list_append. Qed.

Lemma has_open_list_open s : has_open_list (append_content ul_open s) = true.
Proof. by rewrite has_open_list_append. Qed.

Lemma has_open_list_close s : has_open_list (append_content ul_close s) = false.
Proof. by rewrite has_open_list_append. Qed.

Lemma has_open_list_empty s : s_content s = [] -> has_open_list s = false.
Proof. unfold has_open_list. by intros ->. Qed.

Lemma heading_not_new_slide l : is_heading l = true -> is_new_slide l = false.
Proof.
  unfold is_heading, is_new_slide. intros H.
  apply startswith_cons_inv in H as (r & -> & H).
  apply startswith_cons_inv in H as (r' & -> & _). done.
Qed.

Lemma is_plain_inv l :
  is_plain l = true ->
  is_fence l = false /\ is_new_slide l = false /\ is_heading l = false /\
  is_metadata l = false /\ is_bullet l = false.
Proof.
  unfold is_plain. rewrite !andb_true_iff, !negb_true_iff. tauto.
Qed.

End ScanFacts.

(** X1: outside a fence and with a slide under construction, a line that
    starts with a bullet marker after trimming (with or without a colon)
    appends a list item, preceded by a list-open fragment exactly when no
    list is open; afterwards a list is open. *)
Theorem bullet_line_appends_item (st : parser_state) (s : slide) (line : string) :
  in_code_block st = false ->
  current_slide st = Some s ->
  is_bullet line = true ->
  let s' := mkSlide (s_type s) (s_title s)
              (s_content s
               ++ (if has_open_list s then [] else ["<ul>"])
               ++ ["  <li>" +:+ PyStr.strip (PyStr.drop 1 (PyStr.strip line)) +:+ "</li>"])
              (s_metadata s) in
  step st line = mkState (slides st) (Some s') false (code_lang st) /\
  has_open_list s' = true.
Proof.
  intros Hc Hs Hb. simpl.
  rewrite step_bullet_line, (on_current_some _ _ s Hs), Hc by done.
  unfold add_bullet.
  destruct (has_open_list s) eqn:Ho; simpl.
  - split; [done|].
    change (has_open_list (append_content
              (li_frag (PyStr.strip (PyStr.drop 1 (PyStr.strip line)))) s) = true).
    by rewrite has_open_list_li.
  - split.
    + unfold append_content. simpl. by rewrite <- app_assoc.
    + change (has_open_list (mkSlide (s_type s) (s_title s)
                (s_content s ++ [ul_open; li_frag (PyStr.strip (PyStr.drop 1 (PyStr.strip line)))])
                (s_metadata s)) = true).
      unfold has_open_list. simpl. rewrite rev_app_distr. done.
Qed.

Lemma bullet_line_appends_item_witness :
  let st := run init_state ["# S"; "note"] in
  step st " - a: b " =
    mkState [] (Some (mkSlide content "S"
                        ["<p>note</p>"; "<ul>"; "  <li>a: b</li>"] ∅)) false None.
Proof.
  exact (proj1 (bullet_line_appends_item (run init_state ["# S"; "note"])
           (mkSlide content "S" ["<p>note</p>"] ∅) " - a: b "
           eq_refl eq_refl eq_refl)).
Defined.

(** X2: outside a fence and with a slide under construction, a non-blank
    line that is no fence delimiter, marker, sub-heading, metadata or
    bullet line appends a paragraph, preceded by a list-close fragment
    exactly when a list is open; afterwards no list is open. *)
Theorem paragraph_line_closes_list (st : parser_state) (s : slide) (line : string) :
  in_code_block st = false ->
  current_slide st = Some s ->
  is_plain line = true ->
  is_blank line = false ->
  let s' := mkSlide (s_type s) (s_title s)
              (s_content s
               ++ (if has_open_list s then ["</ul>"] else [])
               ++ ["<p>" +:+ PyStr.strip line +:+ "</p>"])
              (s_metadata s) in
  step st line = mkState (slides st) (Some s') false (code_lang st) /\
  has_open_list s' = false.
Proof.
  intros Hc Hs Hp Hb. simpl.
  destruct (is_plain_inv line Hp) as (Hf & Hn & Hh & Hm & Hbu).
  assert (Ht : PyStr.truthy (PyStr.strip line) = true).
  { unfold is_blank in Hb. by apply negb_false_iff in Hb. }
  unfold step. rewrite Hf, Hc, Hn, Hh, Hm, Hbu, Hs.
  destruct (s_content s) as [|f fs] eqn:Hcont.
  - rewrite Ht, (on_current_some _ _ s Hs), Hc.
    rewrite (has_open_list_empty s Hcont).
    unfold append_content. rewrite Hcont. simpl. done.
  - rewrite (on_current_some _ _ s Hs), Hc. unfold add_after_content.
    rewrite Ht, andb_true_r.
    destruct (has_open_list s) eqn:Ho.
    + split.
      * unfold append_content. simpl. rewrite Hcont. by rewrite <- app_assoc.
      * change (has_open_list (mkSlide (s_type s) (s_title s)
                  ((f :: fs) ++ [ul_close; p_frag (PyStr.strip line)])
                  (s_metadata s)) = false).
        unfold has_open_list. cbn [s_content]. by rewrite rev_app_distr.
    + split.
      * unfold append_content. simpl. by rewrite Hcont.
      * change (has_open_list (mkSlide (s_type s) (s_title s)
                  ((f :: fs) ++ [p_frag (PyStr.strip line)])
                  (s_metadata s)) = false).
        rewrite <- Ho. unfold has_open_list. cbn [s_content].
        rewrite Hcont, rev_app_distr. done.
Qed.

Lemma paragraph_line_closes_list_witness :
  let st := run init_state ["# S"; "- a"] in
  step st "  done  " =
    mkState [] (Some (mkSlide content "S"
                        ["<ul>"; "  <li>a</li>"; "</ul>"; "<p>done</p>"] ∅))
            false None.
Proof.
  exact (proj1 (paragraph_line_closes_list (run init_state ["# S"; "- a"])
           (mkSlide content "S" ["<ul>"; "  <li>a</li>"] ∅) "  done  "
           eq_refl eq_refl eq_refl eq_refl)).
Defined.

(** X3: outside a fence and with a slide under construction, a sub-heading
    line appends its heading fragment and nothing else: it neither opens
    nor closes a list, so a list that was open stays open across it. *)
Theorem heading_line_keeps_list (st : parser_state) (s : slide) (line : string) :
  in_code_block st = false ->
  current_slide st = Some s ->
  is_heading line = true ->
  let s' := mkSlide (s_type s) (s_title s)
              (s_content s ++ ["<h2>" +:+ PyStr.strip (PyStr.drop 3 line) +:+ "</h2>"])
              (s_metadata s) in
  step st line = mkState (slides st) (Some s') false (code_lang st) /\
  has_open_list s' = has_open_list s.
Proof.
  intros Hc Hs Hh. simpl. split.
  - unfold step.
    rewrite (heading_not_fence line Hh), Hc, (heading_not_new_slide line Hh), Hh.
    by rewrite (on_current_some _ _ s Hs), Hc.
  - change (has_open_list (append_content
              (h2_frag (PyStr.strip (PyStr.drop 3 line))) s) = has_open_list s).
    apply has_open_list_h2.
Qed.

Lemma heading_line_keeps_list_witness :
  let st := run init_state ["# S"; "- a"] in
  step st "## Part  " =
    mkState [] (Some (mkSlide content "S"
                        ["<ul>"; "  <li>a</li>"; "<h2>Part</h2>"] ∅))
            false None.
Proof.
  exact (proj1 (heading_line_keeps_list (run init_state ["# S"; "- a"])
           (mkSlide content "S" ["<ul>"; "  <li>a</li>"] ∅) "## Part  "
           eq_refl eq_refl eq_refl)).
Defined.

(** ** Splitting the text into lines *)

Section SplitFacts.

Import PyStr.

Lemma split_not_nil c text : split c text <> [].
Proof.
  destruct text as [|a r]; simpl; [done|].
  destruct (Ascii.eqb a c); [done|]. by destruct (split c r).
Qed.

Lemma string_app_cons a r t : String a r +:+ t = String a (r +:+ t).
Proof. reflexivity. Qed.

(** A final separator adds one empty last piece. *)
Lemma split_app_sep c text :
  split c (text +:+ String c EmptyString) = split c text ++ [EmptyString].
Proof.
  induction text as [|a r IH].
  - simpl. by rewrite Ascii.eqb_refl.
  - rewrite string_app_cons. simpl. rewrite IH.
    destruct (Ascii.eqb a c); [done|].
    pose proof (split_not_nil c r). by destruct (split c r).
Qed.

Lemma split_no_sep c p : contains c p = false -> split c p = [p].
Proof.
  induction p as [|a r IH]; simpl; [done|].
  intros H. apply orb_false_iff in H as [Ha Hr].
  rewrite Ha, (IH Hr). done.
Qed.

Lemma split_app_piece c p rest :
  contains c p = false ->
  split c (p +:+ String c rest) = p :: split c rest.
Proof.
  induction p as [|a r IH]; intros H.
  - simpl. by rewrite Ascii.eqb_refl.
  - simpl in H. apply orb_false_iff in H as [Ha Hr].
    rewrite string_app_cons. simpl. by rewrite Ha, (IH Hr).
Qed.

(** Splitting undoes joining, for pieces without the separator. *)
Lemma split_join c parts :
  parts <> [] ->
  Forall (fun p => contains c p = false) parts ->
  split c (join (String c EmptyString) parts) = parts.
Proof.
  induction parts as [|p parts IH]; intros Hne Hall; [done|].
  apply Forall_cons in Hall as [Hp Hall].
  destruct parts as [|q parts].
  - simpl. by apply split_no_sep.
  - change (join (String c EmptyString) (p :: q :: parts))
      with (p +:+ String c (join (String c EmptyString) (q :: parts))).
    rewrite split_app_piece by done. by rewrite IH.
Qed.

End SplitFacts.

(** X4: an outline written as lines without newline characters and joined
    by newlines is parsed as exactly those lines, in order: [parse_outline]
    of the joined text is the loop run over the lines. *)
Theorem parse_outline_of_joined_lines (lines : list string) :
  lines <> [] ->
  Forall (fun l => PyStr.contains newline l = false) lines ->
  PyStr.split newline (join nl lines) = lines /\
  parse_outline (join nl lines) = finalize (fold_left step lines init_state).
Proof.
  intros Hne Hall. unfold parse_outline, parse_lines, run, nl.
  by rewrite (split_join newline lines Hne Hall).
Qed.

Lemma parse_outline_of_joined_lines_witness :
  parse_outline (join nl ["# S"; "- a"; "- b"]) =
  finalize (fold_left step ["# S"; "- a"; "- b"] init_state).
Proof.
  refine (proj2 (parse_outline_of_joined_lines ["# S"; "- a"; "- b"] _ _)).
  - discriminate.
  - repeat constructor.
Defined.

(** ** Blank lines *)

(** X5: a blank line that lies outside every fenced block can be removed
    from (or added to) the outline without changing the parsed slides. *)
Theorem blank_line_outside_fence_irrelevant (before after : list string) (blank : string) :
  in_code_after false before = false ->
  is_blank blank = true ->
  parse_lines (before ++ blank :: after) = parse_lines (before ++ after).
Proof.
  intros Hc Hb. unfold parse_lines.
  rewrite !run_app, run_cons, step_blank; [done| |done].
  by rewrite run_in_code.
Qed.

Lemma blank_line_outside_fence_irrelevant_witness :
  parse_lines (["# S"; "- a"] ++ "   " :: ["- b"]) =
  parse_lines (["# S"; "- a"] ++ ["- b"]).
Proof.
  exact (blank_line_outside_fence_irrelevant ["# S"; "- a"] ["- b"] "   "
           eq_refl eq_refl).
Defined.

(** X6: when every fence opened in the text is closed again, a newline
    added at the end of the text does not change the parsed slides. *)
Theorem trailing_newline_irrelevant (text : string) :
  in_code_after false (PyStr.split newline text) = false ->
  parse_outline (text +:+ nl) = parse_outline text.
Proof.
  intros Hc. unfold parse_outline, nl. rewrite split_app_sep.
  unfold parse_lines. rewrite run_app, run_cons, run_nil, step_blank; try done.
  by rewrite run_in_code.
Qed.

Lemma trailing_newline_irrelevant_witness :
  parse_outline (("# S" +:+ nl +:+ "- a") +:+ nl) =
  parse_outline ("# S" +:+ nl +:+ "- a").
Proof.
  exact (trailing_newline_irrelevant ("# S" +:+ nl +:+ "- a") eq_refl).
Defined.

(** ** Slides once committed *)

Section Committed.

Implicit Types (st : parser_state) (s : slide) (l : string).

Lemma step_slides_prefix st l : slides st `prefix_of` slides (step st l).
Proof.
  unfold step.
  destruct (is_fence l); [by destruct (in_code_block st)|].
  destruct (in_code_block st); [done|].
  destruct (is_new_slide l).
  { simpl. destruct (current_slide st); [by apply prefix_app_r|done]. }
  destruct (is_heading l); [done|].
  destruct (is_metadata l); [done|].
  destruct (is_bullet l); [done|].
  destruct (current_slide st) as [s|]; [|done].
  destruct (s_content s); [|done].
  by destruct (PyStr.truthy _).
Qed.

Lemma run_slides_prefix st ls : slides st `prefix_of` slides (run st ls).
Proof.
  revert st. induction ls as [|l ls IH]; intros st; [done|].
  rewrite run_cons. etrans; [apply step_slides_prefix|apply IH].
Qed.

Lemma finalize_slides_prefix st : slides st `prefix_of` finalize st.
Proof.
  unfold finalize. destruct (current_slide st); [by apply prefix_app_r|done].
Qed.

(** Slides are committed only while one is under construction. *)
Lemma step_none_nil st l :
  (current_slide st = None -> slides st = []) ->
  current_slide (step st l) = None -> slides (step st l) = [].
Proof.
  intros Hinv. unfold step.
  destruct (is_fence l).
  { destruct (in_code_block st); simpl;
      destruct (current_slide st); try done; intros _; by apply Hinv. }
  destruct (in_code_block st).
  { simpl. destruct (current_slide st); [done|]. intros _. by apply Hinv. }
  destruct (is_new_slide l); [done|].
  destruct (is_heading l).
  { simpl. destruct (current_slide st); [done|]. intros _. by apply Hinv. }
  destruct (is_metadata l).
  { simpl. destruct (current_slide st); [done|]. intros _. by apply Hinv. }
  destruct (is_bullet l).
  { simpl. destruct (current_slide st); [done|]. intros _. by apply Hinv. }
  destruct (current_slide st) as [s|] eqn:Hs; [|by auto].
  destruct (s_content s).
  - destruct (PyStr.truthy _); simpl; rewrite ?Hs; done.
  - simpl. by rewrite Hs.
Qed.

Lemma run_none_nil st ls :
  (current_slide st = None -> slides st = []) ->
  current_slide (run st ls) = None -> slides (run st ls) = [].
Proof.
  revert st. induction ls as [|l ls IH]; intros st Hinv; [done|].
  rewrite run_cons. apply IH. by apply step_none_nil.
Qed.

Lemma removelast_snoc (A : Type) (xs : list A) (x : A) : removelast (xs ++ [x]) = xs.
Proof. apply removelast_last. Qed.

(** All slides of a parse but the last are the committed ones. *)
Lemma removelast_parse_lines ls :
  removelast (parse_lines ls) = slides (run init_state ls).
Proof.
  unfold parse_lines, finalize.
  destruct (current_slide (run init_state ls)) as [s|] eqn:Hs.
  - apply removelast_snoc.
  - by rewrite (run_none_nil init_state ls).
Qed.

Lemma step_new_slide st s l :
  in_code_block st = false -> current_slide st = Some s ->
  is_new_slide l = true ->
  step st l = mkState (slides st ++ [s]) (Some (new_slide l)) false (code_lang st).
Proof.
  intros Hc Hs Hn. unfold step.
  by rewrite (new_slide_not_fence l Hn), Hc, Hn, Hs.
Qed.

End Committed.

(** X7: every slide of a parse except the last is final: however the
    outline continues, the parse of the longer outline begins with those
    slides, unchanged. *)
Theorem earlier_slides_never_change (lines more : list string) :
  removelast (parse_lines lines) `prefix_of` parse_lines (lines ++ more).
Proof.
  rewrite removelast_parse_lines. unfold parse_lines. rewrite run_app.
  etrans; [apply run_slides_prefix|apply finalize_slides_prefix].
Qed.

(** X8: a new-slide marker line outside a fence commits the slide under
    construction exactly as it stands: nothing is appended to its body,
    so a list still open in it is left without a list-close fragment
    (only the last slide of the input is closed, by the code after the
    loop). *)
Theorem marker_commits_slide_unchanged
    (before after : list string) (marker : string) (s : slide) :
  current_slide (run init_state before) = Some s ->
  in_code_block (run init_state before) = false ->
  is_new_slide marker = true ->
  (slides (run init_state before) ++ [s])
    `prefix_of` parse_lines (before ++ marker :: after).
Proof.
  intros Hs Hc Hm. unfold parse_lines.
  rewrite run_app, run_cons, (step_new_slide _ s) by done.
  etrans; [|apply finalize_slides_prefix].
  apply (run_slides_prefix (mkState _ _ _ _)).
Qed.

Lemma marker_commits_slide_unchanged_witness :
  [mkSlide content "A" ["<ul>"; "  <li>x</li>"] ∅]
    `prefix_of` parse_lines (["# A"; "- x"] ++ "# B" :: ["- y"]).
Proof.
  exact (marker_commits_slide_unchanged ["# A"; "- x"] ["- y"] "# B"
           (mkSlide content "A" ["<ul>"; "  <li>x</li>"] ∅)
           eq_refl eq_refl eq_refl).
Defined.

(** ** The slide under construction only grows *)

Section Growth.

Implicit Types (st : parser_state) (s : slide) (l : string).

Lemma extends_refl s : extends s s.
Proof. by repeat split. Qed.

Lemma extends_trans s1 s2 s3 : extends s1 s2 -> extends s2 s3 -> extends s1 s3.
Proof.
  intros (Ht & Hh & Hc & Hm) (Ht' & Hh' & Hc' & Hm').
  repeat split; [congruence|congruence|by etrans|by etrans].
Qed.

Lemma extends_append x s : extends s (append_content x s).
Proof. repeat split; simpl; [by apply prefix_app_r|done]. Qed.

Lemma extends_metadata l s : extends s (add_metadata l s).
Proof.
  unfold add_metadata. destruct (PyStr.split_once colon l) as [k v].
  destruct (key_in _ _); [|apply extends_refl].
  repeat split; simpl; [done|]. rewrite dom_insert_L. apply union_subseteq_r.
Qed.

Lemma extends_bullet l s : extends s (add_bullet l s).
Proof.
  unfold add_bullet. destruct (has_open_list s); simpl.
  - apply extends_append.
  - eapply extends_trans; apply extends_append.
Qed.

Lemma extends_after l s : extends s (add_after_content l s).
Proof.
  unfold add_after_content.
  destruct (has_open_list s && PyStr.truthy _).
  - eapply extends_trans; apply extends_append.
  - destruct (PyStr.truthy _); [apply extends_append|apply extends_refl].
Qed.

(** A line that starts no slide keeps the committed slides and continues
    the slide under construction. *)
Lemma step_extends st s l :
  current_slide st = Some s ->
  slide_markers (in_code_block st) [l] = [] ->
  slides (step st l) = slides st /\
  exists s', current_slide (step st l) = Some s' /\ extends s s'.
Proof.
  intros Hs Hm. unfold step. simpl in Hm.
  destruct (is_fence l).
  { destruct (in_code_block st); simpl; rewrite Hs; simpl;
      (split; [done|]); eexists; (split; [done|]); apply extends_append. }
  destruct (in_code_block st).
  { simpl. rewrite Hs. simpl. split; [done|].
    eexists; split; [done|]. apply extends_append. }
  destruct (is_new_slide l); [done|].
  destruct (is_heading l).
  { simpl. rewrite Hs. simpl. split; [done|].
    eexists; split; [done|]. apply extends_append. }
  destruct (is_metadata l).
  { simpl. rewrite Hs. simpl. split; [done|].
    eexists; split; [done|]. apply extends_metadata. }
  destruct (is_bullet l).
  { simpl. rewrite Hs. simpl. split; [done|].
    eexists; split; [done|]. apply extends_bullet. }
  rewrite Hs. destruct (s_content s) eqn:Hcont.
  - destruct (PyStr.truthy _).
    + simpl. rewrite Hs. simpl. split; [done|].
      eexists; split; [done|]. apply extends_append.
    + split; [done|]. exists s. split; [done|]. apply extends_refl.
  - simpl. rewrite Hs. simpl. split; [done|].
    eexists; split; [done|]. apply extends_after.
Qed.

Lemma slide_markers_cons_nil b l ls :
  slide_markers b (l :: ls) = [] ->
  slide_markers b [l] = [] /\
  slide_markers (if is_fence l then negb b else b) ls = [].
Proof. rewrite slide_markers_cons. apply app_eq_nil. Qed.

End Growth.

(** X9: while no new slide starts, the slide under construction only
    grows: lines with no new-slide marker outside a fence leave the
    committed slides as they are and continue the same slide, with its kind
    and heading unchanged, its earlier body kept as the beginning of the
    new body and no metadata key removed. *)
Theorem slide_under_construction_only_grows
    (st : parser_state) (s : slide) (lines : list string) :
  current_slide st = Some s ->
  slide_markers (in_code_block st) lines = [] ->
  slides (run st lines) = slides st /\
  exists s', current_slide (run st lines) = Some s' /\
    s_type s' = s_type s /\ s_title s' = s_title s /\
    s_content s `prefix_of` s_content s' /\
    dom (s_metadata s) ⊆ dom (s_metadata s').
Proof.
  revert st s. induction lines as [|l ls IH]; intros st s Hs Hm.
  - split; [done|]. exists s. split; [done|]. apply extends_refl.
  - apply slide_markers_cons_nil in Hm as [Hl Hls].
    destruct (step_extends st s l Hs Hl) as (Hsl & s1 & Hs1 & He1).
    rewrite <- (step_in_code st l) in Hls.
    destruct (IH (step st l) s1 Hs1 Hls) as (Hsl' & s' & Hs' & He').
    rewrite run_cons. split; [congruence|].
    exists s'. split; [done|]. exact (extends_trans _ _ _ He1 He').
Qed.

Lemma slide_under_construction_only_grows_witness :
  exists s', current_slide (run (run init_state ["# S"; "intro"])
                                ["- a"; "```"; "# not a slide"; "```"; "Title: T"]) = Some s' /\
    s_type s' = content /\ s_title s' = "S" /\
    ["<p>intro</p>"] `prefix_of` s_content s' /\
    dom (∅ : gmap string string) ⊆ dom (s_metadata s').
Proof.
  exact (proj2 (slide_under_construction_only_grows
           (run init_state ["# S"; "intro"])
           (mkSlide content "S" ["<p>intro</p>"] ∅)
           ["- a"; "```"; "# not a slide"; "```"; "Title: T"]
           eq_refl eq_refl)).
Defined.

(** ** Invariants of every parsed slide *)

Section SlideInvariant.

Variable P : slide -> Prop.
Hypothesis P_new : forall l, P (new_slide l).
Hypothesis P_append : forall x s, P s -> P (append_content x s).
Hypothesis P_metadata : forall l s, P s -> P (add_metadata l s).



Lemma P_bullet l s : P s -> P (add_bullet l s).
Proof. intros H. unfold add_bullet. destruct (has_open_list s); simpl; auto. Qed.

Lemma P_after l s : P s -> P (add_after_content l s).
Proof.
  intros H. unfold add_after_content.
  destruct (has_open_list s && PyStr.truthy _); [auto|].
  destruct (PyStr.truthy _); auto.
Qed.

Lemma P_close_last s : P s -> P (close_last s).
Proof.
  intros H. unfold close_last. destruct (last _) as [f|]; [|done].
  destruct (PyStr.startswith f _); auto.
Qed.

Lemma satisfy_fmap f sl cur b b' lang lang' :
  (forall s, P s -> P (f s)) ->
  slides_satisfy P (mkState sl cur b lang) -> slides_satisfy P (mkState sl (f <$> cur) b' lang').
Proof.
  intros Hf [Hsl Hcur]. split; simpl in *; [done|].
  intros s Hs. destruct cur as [s0|]; simpl in Hs; [|done].
  injection Hs as <-. by apply Hf, Hcur.
Qed.

Lemma satisfy_on_current f st :
  (forall s, P s -> P (f s)) -> slides_satisfy P st -> slides_satisfy P (on_current f st).
Proof. destruct st. apply satisfy_fmap. Qed.

Lemma step_inv st l : slides_satisfy P st -> slides_satisfy P (step st l).
Proof.
  intros Hst. unfold step.
  destruct (is_fence l).
  { destruct st as [sl cur b lang]; simpl.
    destruct b; simpl; (eapply satisfy_fmap; [|exact Hst]); auto. }
  destruct (in_code_block st); [apply satisfy_on_current; auto|].
  destruct (is_new_slide l).
  { destruct Hst as [Hsl Hcur]. split; simpl.
    - destruct (current_slide st) as [s|]; [|done].
      apply Forall_app. split; [done|]. apply Forall_singleton. by apply Hcur.
    - intros s [= <-]. apply P_new. }
  destruct (is_heading l); [apply satisfy_on_current; auto|].
  destruct (is_metadata l); [apply satisfy_on_current; auto|].
  destruct (is_bullet l); [apply satisfy_on_current; auto using P_bullet|].
  destruct (current_slide st) as [s|]; [|done].
  destruct (s_content s).
  - destruct (PyStr.truthy _); [|done]. apply satisfy_on_current; auto.
  - apply satisfy_on_current; auto using P_after.
Qed.

Lemma run_inv st ls : slides_satisfy P st -> slides_satisfy P (run st ls).
Proof.
  revert st. induction ls as [|l ls IH]; intros st Hst; [done|].
  rewrite run_cons. by apply IH, step_inv.
Qed.

(** A property of fresh slides that the updates keep holds of every
    parsed slide. *)
Lemma parse_lines_inv ls : Forall P (parse_lines ls).
Proof.
  unfold parse_lines.
  assert (Hst : slides_satisfy P (run init_state ls)).
  { apply run_inv. split; simpl; [constructor|done]. }
  destruct Hst as [Hsl Hcur]. unfold finalize.
  destruct (current_slide _) as [s|]; [|done].
  apply Forall_app. split; [done|]. apply Forall_singleton.
  by apply P_close_last, Hcur.
Qed.

End SlideInvariant.

(** X10: for every input, the kind of each parsed slide is decided by its
    heading alone: a slide is a Title slide exactly when its heading,
    lower-cased, is [title slide]. *)
Theorem slide_kind_follows_heading (text : string) :
  Forall (fun s => s_type s = title <-> PyStr.lower (s_title s) = "title slide")
         (parse_outline text).
Proof.
  apply parse_lines_inv.
  - intros l. unfold new_slide. cbn [s_type s_title].
    destruct (String.eqb_spec (PyStr.lower (PyStr.strip (PyStr.drop 2 l))) "title slide");
      split; intros; done.
  - by intros x s.
  - intros l s H. unfold add_metadata.
    destruct (PyStr.split_once colon l) as [k v]. by destruct (key_in _ _).
Qed.

(** ** Trimmed headings and values *)

Section StripFacts.

Import PyStr.

Lemma rstrip_idem s : rstrip (rstrip s) = rstrip s.
Proof.
  induction s as [|c r IH]; [done|].
  simpl. destruct (rstrip r) as [|d r'] eqn:E.
  - destruct (isspace c) eqn:Hc; [done|]. simpl. by rewrite Hc.
  - change (rstrip (String c (String d r'))) with
      (match rstrip (String d r') with
       | EmptyString => if isspace c then EmptyString else String c EmptyString
       | String _ _ as r0 => String c r0
       end).
    by rewrite IH.
Qed.

Lemma strip_idem s : strip (strip s) = strip s.
Proof.
  unfold strip. destruct (lstrip s) as [|c r] eqn:E; [done|].
  pose proof (lstrip_head _ _ _ E) as Hc.
  destruct (rstrip_cons_nonspace c r Hc) as [r' Hr].
  rewrite Hr. simpl lstrip. rewrite Hc, <- Hr. apply rstrip_idem.
Qed.

Lemma lstrip_app k t a r :
  lstrip k = String a r -> lstrip (k +:+ t) = String a (r +:+ t).
Proof.
  induction k as [|b k IH]; [done|].
  simpl. destruct (isspace b); [exact IH|]. by intros [= -> ->].
Qed.

Lemma strip_app_head k t a r :
  lstrip k = String a r -> exists r', strip (k +:+ t) = String a r'.
Proof.
  intros H. unfold strip. rewrite (lstrip_app k t a r H).
  apply rstrip_cons_nonspace. exact (lstrip_head _ _ _ H).
Qed.

Lemma contains_app c k v : contains c (k +:+ String c v) = true.
Proof.
  induction k as [|b k IH]; simpl.
  - by rewrite Ascii.eqb_refl.
  - rewrite IH. apply orb_true_r.
Qed.

(** Only the first separator splits. *)
Lemma split_once_app c k v :
  contains c k = false -> split_once c (k +:+ String c v) = (k, v).
Proof.
  induction k as [|b k IH]; simpl.
  - by rewrite Ascii.eqb_refl.
  - intros H. apply orb_false_iff in H as [Hb Hk]. by rewrite Hb, (IH Hk).
Qed.

(** The first character of a stripped, non-empty key. *)
Lemma strip_nonempty_head k a r' :
  strip k = String a r' -> exists r, lstrip k = String a r.
Proof.
  unfold strip. destruct (lstrip k) as [|b r] eqn:E; [done|].
  destruct (rstrip_cons_nonspace b r (lstrip_head _ _ _ E)) as [r'' ->].
  intros [= -> _]. eauto.
Qed.

(** A line whose first non-space character is none of the marker
    characters is no fence delimiter, bullet, marker or sub-heading. *)
Lemma unmarked_head_classes k t a r :
  lstrip k = String a r ->
  a <> "`"%char -> a <> "-"%char -> a <> "#"%char ->
  is_fence (k +:+ t) = false /\ is_bullet (k +:+ t) = false /\
  is_new_slide (k +:+ t) = false /\ is_heading (k +:+ t) = false.
Proof.
  intros Hl Hq Hd Hh.
  destruct (strip_app_head k t a r Hl) as [r' Hs].
  assert (Hfirst : forall p, startswith (k +:+ t) (String "#" p) = false).
  { intros p. destruct k as [|b k]; [done|].
    rewrite string_app_cons.
    change (startswith (String b (k +:+ t)) (String "#" p))
      with (Ascii.eqb "#" b && startswith (k +:+ t) p).
    destruct (Ascii.eqb_spec "#" b) as [<-|]; [|done].
    simpl in Hl. injection Hl as <- _. done. }
  unfold is_fence, is_bullet, is_new_slide, is_heading.
  rewrite Hs, !Hfirst.
  change (startswith (String a r') "```")
    with (Ascii.eqb "`" a && startswith r' "``").
  change (startswith (String a r') "-")
    with (Ascii.eqb "-" a && startswith r' EmptyString).
  rewrite (proj2 (Ascii.eqb_neq "`" a)), (proj2 (Ascii.eqb_neq "-" a)) by done.
  done.
Qed.

Lemma metadata_key_head k :
  key_in (strip k) metadata_keys = true ->
  exists a r, lstrip k = String a r /\
    a <> "`"%char /\ a <> "-"%char /\ a <> "#"%char.
Proof.
  intros H.
  destruct (key_in_metadata_keys _ H) as [E | [E | [E | E]]];
    destruct (strip_nonempty_head _ _ _ E) as [r Hr];
    eexists _, r; (split; [exact Hr|]); done.
Qed.

End StripFacts.

Section RecognisedLines.

Implicit Types (st : parser_state) (s : slide).

(** A [Key: value] line with a recognised key always takes the metadata
    branch and stores the value. *)
Lemma step_recognised_line st s key value :
  in_code_block st = false ->
  current_slide st = Some s ->
  PyStr.contains colon key = false ->
  key_in (PyStr.strip key) metadata_keys = true ->
  step st (key +:+ String colon value) =
  mkState (slides st)
    (Some (set_metadata (PyStr.lower (PyStr.strip key)) (PyStr.strip value) s))
    false (code_lang st).
Proof.
  intros Hc Hs Hk Hin.
  destruct (metadata_key_head key Hin) as (a & r & Hl & Hq & Hd & Hh).
  destruct (unmarked_head_classes key (String colon value) a r Hl Hq Hd Hh)
    as (Hf & Hb & Hn & Hhd).
  rewrite step_metadata_line; try done.
  - rewrite (on_current_some _ _ s Hs), Hc.
    by rewrite (add_metadata_recognised _ key value s (split_once_app colon key value Hk) Hin).
  - unfold is_metadata. by rewrite contains_app, Hb.
Qed.

End RecognisedLines.

(** X11: for every input, every slide heading and every stored metadata
    value comes out trimmed: stripping it again changes nothing. *)
Theorem headings_and_values_are_trimmed (text : string) :
  Forall (fun s => trimmed (s_title s) /\
                   forall k v, s_metadata s !! k = Some v -> trimmed v)
         (parse_outline text).
Proof.
  apply parse_lines_inv.
  - intros l. unfold new_slide, trimmed. cbn [s_title s_metadata].
    split; [apply strip_idem|]. intros k v. by rewrite lookup_empty.
  - by intros x s.
  - intros l s [Ht Hm]. unfold add_metadata.
    destruct (PyStr.split_once colon l) as [k0 v0].
    destruct (key_in _ _); [|done].
    split; [done|]. simpl. intros k v.
    rewrite lookup_insert. case_decide.
    + intros [= <-]. apply strip_idem.
    + apply Hm.
Qed.

(** X12: with a slide under construction and outside a fence, a line
    [key:value] whose trimmed key is [Title], [Subtitle], [Author] or [Date]
    always stores the value: the line is split at its first colon only (the
    value may contain colons, bullet or heading markers), the trimmed value
    replaces whatever was stored under the lower-cased key, and the body is
    untouched. *)
Theorem recognised_key_value_line
    (st : parser_state) (s : slide) (key value : string) :
  in_code_block st = false ->
  current_slide st = Some s ->
  PyStr.contains colon key = false ->
  key_in (PyStr.strip key) metadata_keys = true ->
  let k := PyStr.lower (PyStr.strip key) in
  step st (key +:+ ":" +:+ value) =
    mkState (slides st)
      (Some (mkSlide (s_type s) (s_title s) (s_content s)
               (<[k := PyStr.strip value]> (s_metadata s))))
      false (code_lang st) /\
  (<[k := PyStr.strip value]> (s_metadata s)) !! k = Some (PyStr.strip value).
Proof.
  intros Hc Hs Hk Hin. simpl. split.
  - exact (step_recognised_line st s key value Hc Hs Hk Hin).
  - apply lookup_insert_eq.
Qed.

Lemma recognised_key_value_line_witness :
  let st := run init_state ["# Title Slide"; "Date: old"] in
  step st (" Date " +:+ ":" +:+ " 10:30 - # today ") =
    mkState []
      (Some (mkSlide title "Title Slide" []
               (<["date" := "10:30 - # today"]> (<["date" := "old"]> ∅))))
      false None.
Proof.
  exact (proj1 (recognised_key_value_line
           (run init_state ["# Title Slide"; "Date: old"])
           (mkSlide title "Title Slide" [] (<["date" := "old"]> ∅))
           " Date " " 10:30 - # today "
           eq_refl eq_refl eq_refl eq_refl)).
Defined.

(** * Further properties of the renderer and of the script *)

Section RenderFacts.

Lemma string_app_nil_r (a : string) : a +:+ EmptyString = a.
Proof.
  induction a as [|x a IH]; [done|].
  change (String x (a +:+ EmptyString) = String x a). by rewrite IH.
Qed.

Lemma unlines_cons l ls : unlines (l :: ls) = l +:+ nl +:+ unlines ls.
Proof. reflexivity. Qed.

Lemma unlines_app ls1 ls2 : unlines (ls1 ++ ls2) = unlines ls1 +:+ unlines ls2.
Proof.
  induction ls1 as [|l ls1 IH]; [done|].
  rewrite <- app_comm_cons, !unlines_cons, IH.
  by rewrite !string_app_assoc.
Qed.

(** The loop of the Content branch. *)
Lemma fold_left_body_lines body acc :
  fold_left (fun html line => html +:+ "        " +:+ line +:+ nl) body acc =
  acc +:+ unlines (map indent_line body).
Proof.
  revert acc. induction body as [|l body IH]; intros acc.
  - simpl. by rewrite string_app_nil_r.
  - simpl fold_left. rewrite IH. rewrite map_cons, unlines_cons.
    unfold indent_line. by rewrite !string_app_assoc.
Qed.

(** The parser returns as many slides as there are marker lines outside
    fences. *)
Lemma parse_outline_length text :
  length (parse_outline text) =
  length (slide_markers false (PyStr.split newline text)).
Proof.
  unfold parse_outline.
  pose proof (parse_lines_titles (PyStr.split newline text)) as H.
  apply (f_equal length) in H. by rewrite !length_map in H.
Qed.

End RenderFacts.

(** X13: a Content slide is rendered as a section that holds its body
    fragments, one per line, in order, each after eight spaces; neither the
    slide's heading nor its metadata is part of the output. *)
Theorem content_slide_html (t : string) (body : list string) (m : gmap string string) :
  generate_slide_html (mkSlide content t body m) =
  unlines (["      <section>"] ++ map (fun l => "        " +:+ l) body
           ++ ["      </section>"]).
Proof.
  unfold generate_slide_html. cbn [s_type s_content].
  rewrite fold_left_body_lines.
  change (fun l : string => "        " +:+ l) with indent_line.
  rewrite !unlines_app, string_app_assoc. reflexivity.
Qed.

(** ** The script and the outside world *)

Section ScriptFacts.

Context {E : Type} (sys : os E).

Lemma exec_bind_return {A B : Type} (g : A -> B) (p : script A) (e : E) :
  exec sys (bind p (fun a => Return (g a))) e =
  ((exec sys p e).1, g <$> (exec sys p e).2).
Proof.
  revert e. induction p as [a|path k IH|path k IH|path text k IH|msg k IH];
    intros e; simpl.
  - done.
  - destruct (os_exists sys e path) as [[found e']|]; [|done].
    by rewrite IH.
  - destruct (os_read_text sys e path) as [[text e']|]; [|done].
    by rewrite IH.
  - destruct (os_write_text sys e path text) as [e'|]; [|done].
    by rewrite IH.
  - destruct (os_print sys e msg) as [e'|]; [|done].
    by rewrite IH.
Qed.

(** Printing a list of lines touches no path and writes nothing; it ends
    with all lines printed or with a print that raised. *)
Lemma exec_print_all {A : Type} (msgs : list string) (a : A) (e : E) :
  let r := exec sys (print_all msgs (Return a)) e in
  Forall (fun ev => event_path ev = None) r.1 /\
  writes r.1 = [] /\
  ((r.2 = Some a /\ r.1 = map Printed msgs) \/
   (r.2 = None /\ ended_by_raise r.1)).
Proof.
  revert e. induction msgs as [|msg msgs IH]; intros e; simpl.
  - split; [constructor|]. split; [done|]. by left.
  - destruct (os_print sys e msg) as [e'|]; simpl.
    + destruct (IH e') as (Hp & Hw & Hr). split; [by constructor|].
      split; [done|]. destruct Hr as [[Hr Ht]|[Hr [c Hc]]].
      * left. by rewrite Ht.
      * right. split; [done|]. exists c.
        destruct (exec sys (print_all msgs (Return a)) e').1; [done|exact Hc].
    + split; [by repeat constructor|]. split; [done|].
      right. split; [done|]. by eexists.
Qed.

(** The runs of [create_presentation]. *)
Lemma create_presentation_run_table (inp out : string) (e : E) :
  presentation_run inp out (exec sys (create_presentation inp out) e).
Proof.
  unfold create_presentation. cbn [exec].
  destruct (os_read_text sys e inp) as [[text e1]|]; [|constructor].
  pose proof (parse_outline_length text) as Hlen.
  destruct (parse_outline text) as [|s0 sl] eqn:Hsl; cbn [exec].
  - assert (Hm : slide_markers false (PyStr.split newline text) = []).
    { by destruct (slide_markers _ _). }
    destruct (os_print sys e1 _) as [e2|]; by constructor.
  - assert (Hm : slide_markers false (PyStr.split newline text) <> []).
    { intros Hm. by rewrite Hm in Hlen. }
    rewrite Hlen.
    destruct (os_write_text sys e1 out _) as [e2|];
      [|by rewrite <- Hsl; constructor].
    cbn [exec after fst snd].
    destruct (os_print sys e2 _) as [e3|];
      [|by rewrite <- Hsl; constructor].
    cbn [exec after fst snd].
    destruct (os_print sys e3 _) as [e4|]; rewrite <- Hsl; by constructor.
Qed.

End ScriptFacts.

(** X14: whatever the outside world answers, a run of
    [create_presentation] ends in one of three ways.  It returns [True]
    exactly after reading a text with a new-slide marker line outside a
    fence, writing once to the output path and printing the path and the
    slide count, which is the number of such marker lines.  It returns
    [False] exactly after reading a text with no such line and printing
    the error line, with nothing written.  Otherwise one of its calls
    raised; by then it has written nothing, or once to the output path
    after reading a text with a marker line. *)
Theorem create_presentation_runs
    {E : Type} (sys : os E) (e : E) (outline_path output_path : string) :
  let r := exec sys (create_presentation outline_path output_path) e in
  match r.2 with
  | Some true =>
      exists text doc,
        let markers := slide_markers false (PyStr.split newline text) in
        markers <> [] /\
        r.1 = [ReadOk outline_path text; WriteOk output_path doc;
               Printed ("Created presentation: " +:+ output_path);
               Printed ("Slides: " +:+ pretty (length markers))]
  | Some false =>
      exists text,
        slide_markers false (PyStr.split newline text) = [] /\
        r.1 = [ReadOk outline_path text;
               Printed "Error: No slides found in outline"]
  | None =>
      ended_by_raise r.1 /\
      (writes r.1 = [] \/
       exists text doc,
         slide_markers false (PyStr.split newline text) <> [] /\
         head r.1 = Some (ReadOk outline_path text) /\
         writes r.1 = [(output_path, doc)])
  end.
Proof.
  intros r. subst r.
  generalize (create_presentation_run_table sys outline_path output_path e).
  generalize (exec sys (create_presentation outline_path output_path) e).
  intros r H. destruct H; simpl.
  - split; [by eexists|by left].
  - by eexists.
  - split; [by eexists|by left].
  - split; [by eexists|by left].
  - split; [by eexists|]. right. by eexists _, _.
  - split; [by eexists|]. right. by eexists _, _.
  - by eexists _, _.
Qed.

(** X15: whatever the outside world answers, [main] either ends because
    one of its calls raised or exits with status 0 or 1.  The status is 0
    exactly when there are three arguments, the outline path is found,
    the text read from it has a new-slide marker line outside a fence,
    and the write to the output path and both prints went through. *)
Theorem main_exit_status {E : Type} (sys : os E) (e : E) (argv : list string) :
  let r := exec sys (main argv) e in
  match r.2 with
  | Some code =>
      (code = 0 \/ code = 1) /\
      (code = 0 <->
       exists prog outline_path output_path text doc,
         let markers := slide_markers false (PyStr.split newline text) in
         argv = [prog; outline_path; output_path] /\
         markers <> [] /\
         r.1 = [Checked outline_path true; ReadOk outline_path text;
                WriteOk output_path doc;
                Printed ("Created presentation: " +:+ output_path);
                Printed ("Slides: " +:+ pretty (length markers))])
  | None => ended_by_raise r.1
  end.
Proof.
  intros r. subst r.
  assert (Husage : main argv = print_all usage (Return 1) ->
    (forall p i o, argv <> [p; i; o]) ->
    match (exec sys (main argv) e).2 with
    | Some code =>
        (code = 0 \/ code = 1) /\
        (code = 0 <->
         exists prog outline_path output_path text doc,
           let markers := slide_markers false (PyStr.split newline text) in
           argv = [prog; outline_path; output_path] /\
           markers <> [] /\
           (exec sys (main argv) e).1 =
             [Checked outline_path true; ReadOk outline_path text;
              WriteOk output_path doc;
              Printed ("Created presentation: " +:+ output_path);
              Printed ("Slides: " +:+ pretty (length markers))])
    | None => ended_by_raise (exec sys (main argv) e).1
    end).
  { intros -> Hne.
    destruct (exec_print_all sys usage 1 e) as (_ & _ & [[-> _]|[-> Hr]]);
      [|done].
    split; [by right|]. split; [done|].
    intros (p & i & o & ? & ? & Ha & _). by destruct (Hne p i o). }
  destruct argv as [|a0 [|a1 [|a2 [|a3 rest]]]]; try (by apply Husage).
  clear Husage. unfold main. cbn [exec].
  destruct (os_exists sys e a1) as [[[|] e1]|]; [| |by eexists].
  - rewrite exec_bind_return. cbn [after fst snd].
    generalize (create_presentation_run_table sys a1 a2 e1).
    generalize (exec sys (create_presentation a1 a2) e1).
    intros r H. destruct H; simpl; try (by eexists).
    + split; [by right|]. split; [done|].
      by intros (? & ? & ? & ? & ? & _ & _ & ?).
    + split; [by left|]. split; [|done]. intros _.
      by eexists a0, a1, a2, text, _.
  - cbn [exec]. destruct (os_print sys e1 _) as [e2|]; simpl; [|by eexists].
    split; [by right|]. split; [done|].
    by intros (? & ? & ? & ? & ? & _ & _ & ?).
Qed.

(** X16: whatever the outside world answers, [main] touches only the paths
    it is given: with three arguments it tests and reads nothing but the
    outline path and writes to nothing but the output path; with any other
    argument count it touches no path.  It writes at most once, and only
    after the outline path was found and a text with a new-slide marker
    line outside a fence was read from it; when it exits with status 1 it
    has written nothing. *)
Theorem main_touches_only_its_paths
    {E : Type} (sys : os E) (e : E) (argv : list string) :
  let r := exec sys (main argv) e in
  match argv with
  | [_; outline_path; output_path] =>
      Forall (uses_only outline_path output_path) r.1 /\
      (writes r.1 = [] \/
       exists text doc rest,
         slide_markers false (PyStr.split newline text) <> [] /\
         r.1 = Checked outline_path true :: ReadOk outline_path text
               :: WriteOk output_path doc :: rest /\
         writes r.1 = [(output_path, doc)])
  | _ => Forall (fun ev => event_path ev = None) r.1 /\ writes r.1 = []
  end /\
  match r.2 with
  | Some 0 | None => True
  | Some _ => writes r.1 = []
  end.
Proof.
  intros r. subst r.
  assert (Husage : main argv = print_all usage (Return 1) ->
    (Forall (fun ev => event_path ev = None) (exec sys (main argv) e).1 /\
     writes (exec sys (main argv) e).1 = []) /\
    match (exec sys (main argv) e).2 with
    | Some 0 | None => True
    | Some _ => writes (exec sys (main argv) e).1 = []
    end).
  { intros ->.
    destruct (exec_print_all sys usage 1 e) as (Hp & Hw & [[-> _]|[-> _]]);
      by repeat split. }
  destruct argv as [|a0 [|a1 [|a2 [|a3 rest]]]]; try (by apply Husage).
  clear Husage. unfold main. cbn [exec].
  destruct (os_exists sys e a1) as [[[|] e1]|];
    [| |by repeat split; [repeat constructor|left]].
  - rewrite exec_bind_return. cbn [after fst snd].
    generalize (create_presentation_run_table sys a1 a2 e1).
    generalize (exec sys (create_presentation a1 a2) e1).
    intros r H. destruct H; simpl;
      (split; [split; [by repeat constructor|]|done]);
      try (by left); right; by eexists _, _, _.
  - cbn [exec]. destruct (os_print sys e1 _) as [e2|]; simpl;
      by repeat split; [repeat constructor|left].
Qed.

(** ** Balanced list tags *)

Section Bracketing.

Implicit Types (st : parser_state) (s : slide) (l : string) (c : list string).

Lemma brackets_snoc c f : brackets (c ++ [f]) = bracket_step (brackets c) f.
Proof. unfold brackets. by rewrite fold_left_app. Qed.

Lemma list_state_ok_nil : list_state_ok [].
Proof. by split. Qed.

(** A bullet keeps the body in order. *)
Lemma list_state_ok_bullet c t :
  list_state_ok c ->
  list_state_ok (c ++ (if scan_back (rev c) then [] else [ul_open]) ++ [li_frag t]).
Proof.
  intros [Hb Hl]. destruct (scan_back (rev c)) eqn:Ho; simpl app.
  - split.
    + rewrite brackets_snoc, Hb, rev_unit. simpl. by rewrite Ho.
    + rewrite rev_unit, last_snoc. simpl. by rewrite Ho.
  - change (c ++ [ul_open; li_frag t]) with (c ++ [ul_open] ++ [li_frag t]).
    rewrite app_assoc. split.
    + rewrite !brackets_snoc, Hb, !rev_unit. done.
    + rewrite !rev_unit, last_snoc. done.
Qed.

(** A paragraph keeps the body in order. *)
Lemma list_state_ok_paragraph c t :
  list_state_ok c ->
  list_state_ok (c ++ (if scan_back (rev c) then [ul_close] else []) ++ [p_frag t]).
Proof.
  intros [Hb Hl]. destruct (scan_back (rev c)) eqn:Ho; simpl app.
  - change (c ++ [ul_close; p_frag t]) with (c ++ [ul_close] ++ [p_frag t]).
    rewrite app_assoc. split.
    + rewrite !brackets_snoc, Hb, !rev_unit. done.
    + rewrite !rev_unit, last_snoc. done.
  - split.
    + rewrite brackets_snoc, Hb, rev_unit. simpl. by rewrite Ho.
    + rewrite rev_unit, last_snoc. simpl. by rewrite Ho.
Qed.

(** Closing the last slide leaves every list closed. *)
Lemma list_state_ok_close_last s :
  list_state_ok (s_content s) -> well_bracketed (s_content (close_last s)).
Proof.
  intros [Hb Hl]. unfold close_last, well_bracketed.
  destruct (last (s_content s)) as [f|] eqn:E.
  - destruct (PyStr.startswith f "  <li>") eqn:Hf.
    + simpl. rewrite brackets_snoc, Hb, Hl. done.
    + by rewrite Hb, Hl.
  - by rewrite Hb, Hl.
Qed.

Lemma add_bullet_body l s :
  s_content (add_bullet l s) =
  s_content s ++ (if has_open_list s then [] else [ul_open])
  ++ [li_frag (PyStr.strip (PyStr.drop 1 (PyStr.strip l)))].
Proof.
  unfold add_bullet. destruct (has_open_list s); simpl; [done|].
  by rewrite <- app_assoc.
Qed.

Lemma add_after_content_body l s :
  PyStr.truthy (PyStr.strip l) = true ->
  s_content (add_after_content l s) =
  s_content s ++ (if has_open_list s then [ul_close] else [])
  ++ [p_frag (PyStr.strip l)].
Proof.
  intros Ht. unfold add_after_content. rewrite Ht, andb_true_r.
  destruct (has_open_list s); simpl; [|done]. by rewrite <- app_assoc.
Qed.

Lemma add_after_content_blank l s :
  PyStr.truthy (PyStr.strip l) = false -> add_after_content l s = s.
Proof. intros Ht. unfold add_after_content. by rewrite Ht, andb_false_r. Qed.

(** Outside a fence, a line that is no fence delimiter, marker or
    sub-heading keeps the body of the slide under construction in
    order. *)
Lemma step_list_state_ok st s l :
  in_code_block st = false -> current_slide st = Some s ->
  is_fence l = false -> is_new_slide l = false -> is_heading l = false ->
  list_state_ok (s_content s) ->
  exists s', step st l = mkState (slides st) (Some s') false (code_lang st) /\
             list_state_ok (s_content s').
Proof.
  intros Hc Hs Hf Hn Hh Hok.
  assert (Hsame : st = mkState (slides st) (Some s) false (code_lang st)).
  { destruct st; simpl in *; by subst. }
  unfold step. rewrite Hf, Hc, Hn, Hh.
  destruct (is_metadata l).
  { rewrite (on_current_some _ _ s Hs), Hc. eexists; split; [done|].
    unfold add_metadata. destruct (PyStr.split_once colon l) as [k v].
    by destruct (key_in _ _). }
  destruct (is_bullet l).
  { rewrite (on_current_some _ _ s Hs), Hc. eexists; split; [done|].
    rewrite add_bullet_body. by apply list_state_ok_bullet. }
  rewrite Hs.
  destruct (PyStr.truthy (PyStr.strip l)) eqn:Ht.
  - pose proof (list_state_ok_paragraph (s_content s) (PyStr.strip l) Hok) as H.
    destruct (s_content s) as [|f fs] eqn:Hcont.
    + rewrite (on_current_some _ _ s Hs), Hc. eexists; split; [done|].
      simpl. by rewrite Hcont.
    + rewrite (on_current_some _ _ s Hs), Hc. eexists; split; [done|].
      rewrite add_after_content_body by done. unfold has_open_list.
      by rewrite Hcont.
  - exists s. split; [|done].
    destruct (s_content s); [done|].
    rewrite (on_current_some _ _ s Hs), Hc.
    by rewrite add_after_content_blank.
Qed.

Lemma run_list_state_ok st s ls :
  in_code_block st = false -> current_slide st = Some s ->
  Forall (fun l => is_fence l = false /\ is_new_slide l = false /\
                   is_heading l = false) ls ->
  list_state_ok (s_content s) ->
  exists s', run st ls = mkState (slides st) (Some s') false (code_lang st) /\
             list_state_ok (s_content s').
Proof.
  revert st s. induction ls as [|l ls IH]; intros st s Hc Hs Hls Hok.
  - exists s. split; [destruct st; simpl in *; by subst|done].
  - apply Forall_cons in Hls as [(Hf & Hn & Hh) Hls].
    destruct (step_list_state_ok st s l Hc Hs Hf Hn Hh Hok) as (s1 & Hstep & Hok1).
    rewrite run_cons, Hstep.
    destruct (IH (mkState (slides st) (Some s1) false (code_lang st)) s1
                 eq_refl eq_refl Hls Hok1) as (s' & Hrun & Hok').
    exists s'. by split.
Qed.

End Bracketing.

(** X17: a slide whose lines are only bullets, paragraphs, metadata lines
    and blank lines (no fence delimiter, no sub-heading) and that ends the
    input comes out with balanced list tags: in its body every list-open
    fragment is followed by list items only and then by a list-close
    fragment, and no list item lies outside a list. *)
Theorem bullets_and_paragraphs_are_well_bracketed
    (st : parser_state) (s : slide) (lines : list string) :
  in_code_block st = false ->
  current_slide st = Some s ->
  s_content s = [] ->
  Forall (fun l => is_fence l = false /\ is_new_slide l = false /\
                   is_heading l = false) lines ->
  exists s', finalize (run st lines) = slides st ++ [s'] /\
             well_bracketed (s_content s').
Proof.
  intros Hc Hs Hcont Hls.
  destruct (run_list_state_ok st s lines Hc Hs Hls) as (s' & Hrun & Hok).
  { rewrite Hcont. apply list_state_ok_nil. }
  exists (close_last s'). rewrite Hrun. split; [done|].
  by apply list_state_ok_close_last.
Qed.

Lemma bullets_and_paragraphs_are_well_bracketed_witness :
  exists s',
    finalize (run (run init_state ["# S"])
                  ["- a"; ""; "- b"; "text"; "Note: x"; "- c"]) = [] ++ [s'] /\
    well_bracketed (s_content s').
Proof.
  refine (bullets_and_paragraphs_are_well_bracketed
            (run init_state ["# S"]) (mkSlide content "S" [] ∅)
            ["- a"; ""; "- b"; "text"; "Note: x"; "- c"]
            eq_refl eq_refl eq_refl _).
  repeat constructor.
Defined.
